(** * Condition Task List Trader: the matching engine and the risk-gated executor

  A shallow embedding of [condition_parser.Condition],
  [conditions_matcher.ConditionsMatcher] and [trade_executor.TradeExecutor],
  followed by the properties of the evaluation pass, of condition
  registration and of trade execution.

  Python [float]s are IEEE binary64 numbers: they are modelled by Rocq's
  primitive floats, whose operations are the same binary64 operations.
  Python [int]s are unbounded: they are modelled by [Z]. *)

From Stdlib Require Import ZArith Floats Lia.
From stdpp Require Import base option list gmap strings pretty.

Set Warnings "-inexact-float".
Set Default Proof Using "Type".

(** ** Python numbers and exceptions *)

Module Py.

(** The exceptions the modelled code can meet. *)
Inductive exn :=
| ZeroDivisionError
| OverflowError
| ValueError.

(** A computation that returns or raises. *)
Inductive result (A : Type) :=
| Ok (a : A)
| Raise (e : exn).
Arguments Ok {A} a.
Arguments Raise {A} e.

Definition bind {A B} (r : result A) (k : A → result B) : result B :=
  match r with
  | Ok a => k a
  | Raise e => Raise e
  end.

(** [try: ... except Exception: handler] *)
Definition try_except {A} (r : result A) (handler : exn → A) : A :=
  match r with
  | Ok a => a
  | Raise e => handler e
  end.

(** [x / y] on floats: a zero divisor (of either sign) raises, every other
    case is the IEEE quotient. *)
Definition truediv (x y : float) : result float :=
  if PrimFloat.is_zero y then Raise ZeroDivisionError
  else Ok (x / y)%float.

(** The integer part of a finite float, as a numerator and a denominator:
    [S754_finite s m e] is [(-1)^s * m * 2^e], so its value is [n / d] with
    [d] a positive power of two. *)
Definition ratio (s : bool) (m : positive) (e : Z) : Z * Z :=
  let n := if s then Z.neg m else Z.pos m in
  if (0 <=? e)%Z then (n * 2 ^ e, 1)%Z else (n, 2 ^ (- e))%Z.

(** [int(x)]: truncation toward zero; an infinity raises [OverflowError], a
    NaN raises [ValueError]. *)
Definition int (x : float) : result Z :=
  match Prim2SF x with
  | S754_zero _ => Ok 0%Z
  | S754_finite s m e => let '(n, d) := ratio s m e in Ok (Z.quot n d)
  | S754_infinity _ => Raise OverflowError
  | S754_nan => Raise ValueError
  end.


(** The conversion of an [int] operand in mixed arithmetic ([x * n] with
    [x] a float): the nearest binary64 number, ties to even;
    [OverflowError] when it is out of range. *)
Definition float_of_int (n : Z) : result float :=
  let f := SF2Prim (binary_normalize prec emax n 0 false) in
  if PrimFloat.is_infinity f then Raise OverflowError else Ok f.

(** [str(n)] for an [int]. *)
Definition str_int (n : Z) : string := pretty n.

(** A float that is neither an infinity nor a NaN. *)
Definition is_finite (x : float) : bool :=
  negb (PrimFloat.is_nan x) && negb (PrimFloat.is_infinity x).

End Py.

(** ** condition_parser.Condition *)

Module Condition.

Record t := mk {
  task_id : string;
  description : string;
  indicator : string;
  operator : string;
  value : float;
  completed : bool;              (* = False *)
  current_value : option float   (* = None *)
}.

(** [Condition(task_id=.., description=.., indicator=.., operator=..,
    value=..)], the two state fields at their defaults. *)
Definition new (task_id description indicator operator : string) (value : float) : t :=
  mk task_id description indicator operator value false None.

(** [condition.completed = b] *)
Definition set_completed (b : bool) (c : t) : t :=
  mk (task_id c) (description c) (indicator c) (operator c) (value c)
     b (current_value c).

(** [condition.current_value = v] *)
Definition set_current_value (v : option float) (c : t) : t :=
  mk (task_id c) (description c) (indicator c) (operator c) (value c)
     (completed c) v.

End Condition.

(** ** conditions_matcher.MarketData *)

Module MarketData.

Record t := mk {
  symbol : string;
  price : float;
  volume : float;
  indicators : gmap string float;
  timestamp : float
}.

End MarketData.

(** ** conditions_matcher.ConditionsMatcher *)

Module Matcher.

(** Registered callbacks are opaque observers, known by name.  A call of
    one is recorded with the arguments it receives; the callbacks are
    wrapped in [try/except], so none can interrupt the matcher. *)
Definition callback := string.

Inductive call :=
| UpdateCall (cb : callback) (conditions : list Condition.t)
| TradeCall (cb : callback) (symbol : string) (conditions : list Condition.t).

Record t := mk {
  conditions : list Condition.t;
  market_data : gmap string MarketData.t;
  task_queue : list (string * MarketData.t);   (* the ('update', symbol, data) items *)
  update_callbacks : list callback;
  trade_executed_callbacks : list callback;
  running : bool
}.

(** [ConditionsMatcher()] *)
Definition init : t := mk [] ∅ [] [] [] false.

Definition set_conditions (cs : list Condition.t) (self : t) : t :=
  mk cs (market_data self) (task_queue self) (update_callbacks self)
     (trade_executed_callbacks self) (running self).

Definition register_update_callback (self : t) (cb : callback) : t :=
  mk (conditions self) (market_data self) (task_queue self)
     (update_callbacks self ++ [cb]) (trade_executed_callbacks self) (running self).

Definition register_trade_callback (self : t) (cb : callback) : t :=
  mk (conditions self) (market_data self) (task_queue self)
     (update_callbacks self) (trade_executed_callbacks self ++ [cb]) (running self).

(** [_notify_update]: every update callback receives [self.conditions]. *)
Definition _notify_update (self : t) : list call :=
  (λ cb, UpdateCall cb (conditions self)) <$> update_callbacks self.

(** [_execute_trade]: every trade callback receives the symbol and
    [self.conditions]. *)
Definition _execute_trade (self : t) (symbol : string) : list call :=
  (λ cb, TradeCall cb symbol (conditions self)) <$> trade_executed_callbacks self.

(** [add_conditions]: [self.conditions.extend(conditions)], then notify. *)
Definition add_conditions (self : t) (new_conditions : list Condition.t) : t * list call :=
  let self := set_conditions (conditions self ++ new_conditions) self in
  (self, _notify_update self).

(** [self.conditions.clear()], as the callers do before [add_conditions]. *)
Definition clear_conditions (self : t) : t := set_conditions [] self.

(** The source has no method of this name: the condition set is replaced as
    [main.py] and [dashboard.py] write it,
    [matcher.conditions.clear(); matcher.add_conditions(new)]. *)
Definition replace_conditions (self : t) (new_conditions : list Condition.t) : t * list call :=
  add_conditions (clear_conditions self) new_conditions.

(** [reset_conditions] *)
Definition reset_conditions (self : t) : t * list call :=
  let self :=
    set_conditions
      ((λ c, Condition.set_current_value None (Condition.set_completed false c))
         <$> conditions self) self in
  (self, _notify_update self).

(** [update_market_data] *)
Definition update_market_data (self : t) (symbol : string) (data : MarketData.t) : t :=
  mk (conditions self) (<[symbol := data]> (market_data self))
     (task_queue self ++ [(symbol, data)]) (update_callbacks self)
     (trade_executed_callbacks self) (running self).

(** [_condition_applies_to_symbol]: for now, all apply. *)
Definition _condition_applies_to_symbol (condition : Condition.t) (symbol : string) : bool :=
  true.

(** [_evaluate_condition]: the condition as the call leaves it (only
    [current_value] can have been written) and the returned verdict.  The
    comparisons are between floats and cannot raise, so the [except] branch
    of the source is never taken. *)
Definition _evaluate_condition (condition : Condition.t) (data : MarketData.t)
  : Condition.t * bool :=
  let found :=
    if decide (Condition.indicator condition = "Price") then
      Some (MarketData.price data)
    else if decide (Condition.indicator condition = "Volume") then
      Some (MarketData.volume data)
    else
      MarketData.indicators data !! Condition.indicator condition in
  match found with
  | None => (condition, false)     (* Indicator not available *)
  | Some current_value =>
      let condition := Condition.set_current_value (Some current_value) condition in
      let verdict :=
        if decide (Condition.operator condition = "<") then
          (current_value <? Condition.value condition)%float
        else if decide (Condition.operator condition = ">") then
          (Condition.value condition <? current_value)%float
        else if decide (Condition.operator condition = "<=") then
          (current_value <=? Condition.value condition)%float
        else if decide (Condition.operator condition = ">=") then
          (Condition.value condition <=? current_value)%float
        else false in
      (condition, verdict)
  end.

(** The body of the [for] loop of [_evaluate_conditions_for_symbol] for one
    condition: the condition as rewritten and the two flags. *)
Definition evaluate_one (symbol : string) (data : MarketData.t)
    (condition : Condition.t) (conditions_updated all_completed : bool)
  : Condition.t * bool * bool :=
  if _condition_applies_to_symbol condition symbol then
    let was_completed := Condition.completed condition in
    let '(condition, verdict) := _evaluate_condition condition data in
    let condition := Condition.set_completed verdict condition in
    let conditions_updated :=
      if negb (eqb (Condition.completed condition) was_completed) then true
      else conditions_updated in
    let all_completed :=
      if negb (Condition.completed condition) then false else all_completed in
    (condition, conditions_updated, all_completed)
  else (condition, conditions_updated, all_completed).

(** The [for] loop, from the given values of the two flags. *)
Fixpoint evaluate_loop (symbol : string) (data : MarketData.t)
    (cs : list Condition.t) (conditions_updated all_completed : bool)
  : list Condition.t * bool * bool :=
  match cs with
  | [] => ([], conditions_updated, all_completed)
  | condition :: rest =>
      let '(condition, conditions_updated, all_completed) :=
        evaluate_one symbol data condition conditions_updated all_completed in
      let '(rest, conditions_updated, all_completed) :=
        evaluate_loop symbol data rest conditions_updated all_completed in
      (condition :: rest, conditions_updated, all_completed)
  end.

(** [bool(self.conditions)]: a list is true when it is not empty. *)
Definition truthy {A} (l : list A) : bool :=
  match l with [] => false | _ => true end.

(** [_evaluate_conditions_for_symbol]: one evaluation pass. *)
Definition _evaluate_conditions_for_symbol (self : t) (symbol : string)
    (data : MarketData.t) : t * list call :=
  let '(cs, conditions_updated, all_completed) :=
    evaluate_loop symbol data (conditions self) false true in
  let self := set_conditions cs self in
  let notified := if conditions_updated then _notify_update self else [] in
  let fired :=
    if all_completed && truthy (conditions self) then _execute_trade self symbol
    else [] in
  (self, notified ++ fired).

(** The inner loop of [_matching_loop]: the pending queue items are
    evaluated in order; the calls of each pass are kept apart. *)
Fixpoint evaluate_all (self : t) (items : list (string * MarketData.t))
  : t * list (list call) :=
  match items with
  | [] => (self, [])
  | (symbol, data) :: rest =>
      let '(self, calls) := _evaluate_conditions_for_symbol self symbol data in
      let '(self, later) := evaluate_all self rest in
      (self, calls :: later)
  end.

(** [while not self.task_queue.empty(): ...]: the queue is emptied, oldest
    item first. *)
Definition drain_queue (self : t) : t * list (list call) :=
  let items := task_queue self in
  evaluate_all
    (mk (conditions self) (market_data self) [] (update_callbacks self)
        (trade_executed_callbacks self) (running self))
    items.

(** *** Observations on calls *)

Definition is_trade_call (c : call) : bool :=
  match c with TradeCall _ _ _ => true | UpdateCall _ _ => false end.

Definition is_update_call (c : call) : bool :=
  match c with UpdateCall _ _ => true | TradeCall _ _ _ => false end.

(** The calls of the trade callback [cb] in a list of calls, counted. *)
Definition is_trade_call_of (cb : callback) (c : call) : bool :=
  match c with
  | TradeCall cb' _ _ => String.eqb cb' cb
  | UpdateCall _ _ => false
  end.

Definition trade_calls_of (cb : callback) (calls : list call) : nat :=
  length (List.filter (is_trade_call_of cb) calls).

(** The condition set is fully satisfied: not empty, every flag set. *)
Definition all_satisfied (cs : list Condition.t) : bool :=
  truthy cs && forallb Condition.completed cs.

(** *** What a pass does to one condition *)

(** The value [_evaluate_condition] reads for a condition, if the snapshot
    has one. *)
Definition observed (data : MarketData.t) (c : Condition.t) : option float :=
  if decide (Condition.indicator c = "Price") then Some (MarketData.price data)
  else if decide (Condition.indicator c = "Volume") then Some (MarketData.volume data)
  else MarketData.indicators data !! Condition.indicator c.

(** A condition as one turn of the loop leaves it. *)
Definition evaluated (data : MarketData.t) (c : Condition.t) : Condition.t :=
  let '(c', verdict) := _evaluate_condition c data in
  Condition.set_completed verdict c'.

(** The turn flipped the flag of [c]. *)
Definition flips (data : MarketData.t) (c : Condition.t) : bool :=
  negb (eqb (Condition.completed (evaluated data c)) (Condition.completed c)).

(** Two conditions that are the same rule: they differ at most in
    [completed] and [current_value]. *)
Definition same_rule (c c' : Condition.t) : Prop :=
  Condition.task_id c' = Condition.task_id c
  ∧ Condition.description c' = Condition.description c
  ∧ Condition.indicator c' = Condition.indicator c
  ∧ Condition.operator c' = Condition.operator c
  ∧ Condition.value c' = Condition.value c.

(** The set is fully satisfied after each of the passes for [items]. *)
Fixpoint stays_satisfied (self : t) (items : list (string * MarketData.t)) : bool :=
  match items with
  | [] => true
  | (symbol, data) :: rest =>
      let '(self, _) := _evaluate_conditions_for_symbol self symbol data in
      all_satisfied (conditions self) && stays_satisfied self rest
  end.

(** How many times [cb] is registered as a trade callback. *)
Definition registrations (cb : callback) (self : t) : nat :=
  length (List.filter (λ cb', String.eqb cb' cb) (trade_executed_callbacks self)).

(** The flag of some condition differs between two states of the set. *)
Definition flag_changed (before after : list Condition.t) : Prop :=
  ∃ i c c', before !! i = Some c ∧ after !! i = Some c'
            ∧ Condition.completed c' ≠ Condition.completed c.

(** *** The feed and the queue *)

(** The feed's calls of [update_market_data], one per item, in order. *)
Definition submit_all (self : t) (items : list (string * MarketData.t)) : t :=
  fold_left (λ self item, update_market_data self item.1 item.2) items self.

(** The last snapshot submitted for [symbol] among [items], if any. *)
Definition last_for (symbol : string) (items : list (string * MarketData.t))
  : option MarketData.t :=
  snd <$> last (List.filter (λ item, String.eqb item.1 symbol) items).

(** How many of the passes for [items] leave the set fully satisfied. *)
Fixpoint satisfied_passes (self : t) (items : list (string * MarketData.t)) : nat :=
  match items with
  | [] => 0
  | (symbol, data) :: rest =>
      let '(self, _) := _evaluate_conditions_for_symbol self symbol data in
      (if all_satisfied (conditions self) then 1 else 0) + satisfied_passes self rest
  end.

(** The four comparators [_evaluate_condition] knows. *)
Definition comparators : list string := ["<"; ">"; "<="; ">="].

End Matcher.

(** ** trade_executor: orders, executions, risk parameters *)

Module TradeOrder.

Record t := mk {
  symbol : string;
  order_type : string;            (* 'market', 'limit', 'stop' *)
  quantity : Z;
  price : option float;           (* = None *)
  stop_price : option float;      (* = None *)
  time_in_force : string          (* = 'IOC' *)
}.

End TradeOrder.

Module TradeExecution.

Record t := mk {
  order : TradeOrder.t;
  executed_price : float;
  executed_quantity : Z;
  timestamp : float;
  execution_id : string;
  commission : float              (* = 0.0 *)
}.

End TradeExecution.

Module RiskParameters.

Record t := mk {
  max_position_size : float;
  max_daily_loss : float;
  stop_loss_percentage : float;
  take_profit_percentage : float;
  max_risk_per_trade : float
}.

(** [RiskParameters()] *)
Definition default : t := mk 10000 1000 0.02 0.05 0.01.

End RiskParameters.

(** ** trade_executor.TradeExecutor *)

Module Executor.

(** What [self.broker_manager.execute_trade(order)] does: it returns an
    execution, returns [None] (no active broker, or a broker that caught its
    own failure), or raises. *)
Inductive broker_reply :=
| Filled (execution : TradeExecution.t)
| Declined
| Failed.

(** What a call of [execute_trade] takes from outside the executor: the
    broker, the draw of [random.uniform(-0.0005, 0.0005)] and the two readings
    of [time.time()] made by [_simulate_execution]. *)
Record env := mk_env {
  broker : TradeOrder.t → broker_reply;
  uniform : float;
  time_stamp : float;
  time_id : float
}.

Record t := mk {
  portfolio_value : float;
  risk_params : RiskParameters.t;
  executed_trades : list TradeExecution.t;
  daily_pnl : float;
  last_reset_date : float;
  using_real_broker : bool
}.

(** [TradeExecutor(portfolio_value)]: [connected] says whether
    [_connect_to_brokers] found a broker, [day] is [time.time() // 86400]. *)
Definition init (portfolio_value : float) (connected : bool) (day : float) : t :=
  mk portfolio_value RiskParameters.default [] 0 day connected.

(** What a call of [execute_trade] leaves: the executor, the value returned
    and the orders handed to the broker manager, in order. *)
Record outcome := mk_outcome {
  executor : t;
  returned : option TradeExecution.t;
  placed : list TradeOrder.t
}.

(** [_check_risk_limits] *)
Definition _check_risk_limits (self : t) (symbol : string) (market_data : MarketData.t) : bool :=
  if (daily_pnl self <? - RiskParameters.max_daily_loss (risk_params self))%float then
    false
  else
    let current_price := MarketData.price market_data in
    let order_value := (current_price * 100)%float in   (* Assuming 100 shares *)
    if (RiskParameters.max_position_size (risk_params self) <? order_value)%float then
      false
    else true.

(** [_calculate_position_size] *)
Definition _calculate_position_size (self : t) (market_data : MarketData.t) : Py.result Z :=
  let current_price := MarketData.price market_data in
  let max_risk_amount :=
    (portfolio_value self * RiskParameters.max_risk_per_trade (risk_params self))%float in
  let stop_loss_amount :=
    (current_price * RiskParameters.stop_loss_percentage (risk_params self))%float in
  Py.bind (Py.truediv max_risk_amount stop_loss_amount) (λ position_size,
  Py.int position_size).

(** [_create_order] *)
Definition _create_order (symbol : string) (market_data : MarketData.t) (quantity : Z)
  : TradeOrder.t :=
  TradeOrder.mk symbol "market" quantity (Some (MarketData.price market_data)) None "IOC".

(** [_simulate_execution]: any exception inside makes it return [None]. *)
Definition _simulate_execution (order : TradeOrder.t) (market_data : MarketData.t)
    (E : env) : option TradeExecution.t :=
  Py.try_except
    (let slippage := uniform E in
     let executed_price := (MarketData.price market_data * (1 + slippage))%float in
     Py.bind (Py.float_of_int (TradeOrder.quantity order)) (λ quantity,
     let trade_value := (executed_price * quantity)%float in
     let commission := (trade_value * 0.001)%float in
     Py.bind (Py.int (time_id E * 1000)%float) (λ millis,
     Py.Ok (Some (TradeExecution.mk order executed_price (TradeOrder.quantity order)
                    (time_stamp E) ("EXEC_" +:+ Py.str_int millis) commission)))))
    (λ _, None).

(** [_execute_real_broker]: a broker call that raises falls back to the
    simulation. *)
Definition _execute_real_broker (order : TradeOrder.t) (market_data : MarketData.t)
    (E : env) : option TradeExecution.t :=
  match broker E order with
  | Filled execution => Some execution
  | Declined => None
  | Failed => _simulate_execution order market_data E
  end.

(** [_set_broker_risk_orders]: the orders handed to the broker; when the
    first call raises, the second is not made. *)
Definition _set_broker_risk_orders (self : t) (execution : TradeExecution.t)
    (market_data : MarketData.t) (E : env) : list TradeOrder.t :=
  let stop_loss_price :=
    (TradeExecution.executed_price execution
     * (1 - RiskParameters.stop_loss_percentage (risk_params self)))%float in
  let take_profit_price :=
    (TradeExecution.executed_price execution
     * (1 + RiskParameters.take_profit_percentage (risk_params self)))%float in
  let stop_order :=
    TradeOrder.mk (TradeOrder.symbol (TradeExecution.order execution)) "stop"
      (TradeExecution.executed_quantity execution) None (Some stop_loss_price) "IOC" in
  let limit_order :=
    TradeOrder.mk (TradeOrder.symbol (TradeExecution.order execution)) "limit"
      (TradeExecution.executed_quantity execution) (Some take_profit_price) None "IOC" in
  match broker E stop_order with
  | Failed => [stop_order]
  | _ => [stop_order; limit_order]
  end.

(** [self.executed_trades.append(execution)] *)
Definition append_trade (execution : TradeExecution.t) (self : t) : t :=
  mk (portfolio_value self) (risk_params self) (executed_trades self ++ [execution])
     (daily_pnl self) (last_reset_date self) (using_real_broker self).

(** [execute_trade]: it returns an outcome, or raises what
    [_calculate_position_size] raises. *)
Definition execute_trade (self : t) (symbol : string) (market_data : MarketData.t)
    (conditions : list Condition.t) (E : env) : Py.result outcome :=
  if negb (_check_risk_limits self symbol market_data) then
    Py.Ok (mk_outcome self None [])
  else
    Py.bind (_calculate_position_size self market_data) (λ position_size,
    if (position_size <=? 0)%Z then
      Py.Ok (mk_outcome self None [])
    else
      let order := _create_order symbol market_data position_size in
      let execution :=
        if using_real_broker self then _execute_real_broker order market_data E
        else _simulate_execution order market_data E in
      let sent := if using_real_broker self then [order] else [] in
      match execution with
      | Some e =>
          let self' := append_trade e self in
          let risk_orders :=
            if using_real_broker self then _set_broker_risk_orders self' e market_data E
            else [] in
          Py.Ok (mk_outcome self' (Some e) (sent ++ risk_orders))
      | None => Py.Ok (mk_outcome self None sent)
      end).

(** [reset_daily_account]: [current_date] is the day the call reads,
    [time.time() // 86400]. *)
Definition reset_daily_account (self : t) (current_date : float) : t :=
  if (last_reset_date self <? current_date)%float then
    mk (portfolio_value self) (risk_params self) (executed_trades self)
       0 current_date (using_real_broker self)
  else self.

(** The execution a call returned, [None] also when it raised. *)
Definition execution_of (r : Py.result outcome) : option TradeExecution.t :=
  match r with
  | Py.Ok o => returned o
  | Py.Raise _ => None
  end.

End Executor.

(** ** main.py and production_main.py: the trade callback

    Both programs register one trade callback, [on_trade_executed], which
    looks the symbol up in [matcher.market_data] and hands the snapshot found
    there to [executor.execute_trade]. *)

Module Main.

(** [on_trade_executed]: the executor as the call leaves it.  The matcher
    calls it inside [try/except], so what [execute_trade] raises ends the
    callback and leaves the executor as it was. *)
Definition on_trade_executed (market_data : gmap string MarketData.t)
    (executor : Executor.t) (symbol : string) (conditions : list Condition.t)
    (E : Executor.env) : Executor.t :=
  match market_data !! symbol with
  | Some snapshot =>
      match Executor.execute_trade executor symbol snapshot conditions E with
      | Py.Ok o => Executor.executor o
      | Py.Raise _ => executor
      end
  | None => executor
  end.

(** The calls of a run as the two callbacks of [main.py] handle them:
    [on_conditions_updated] only prints, [on_trade_executed] trades; the
    [n]-th call of the run meets the environment [envs n]. *)
Fixpoint handle_calls (market_data : gmap string MarketData.t)
    (executor : Executor.t) (calls : list Matcher.call)
    (envs : nat → Executor.env) (n : nat) : Executor.t :=
  match calls with
  | [] => executor
  | Matcher.UpdateCall _ _ :: rest =>
      handle_calls market_data executor rest envs (S n)
  | Matcher.TradeCall _ symbol conditions :: rest =>
      handle_calls market_data
        (on_trade_executed market_data executor symbol conditions (envs n))
        rest envs (S n)
  end.

End Main.

(** ** Sample values

    The demo task list of [main.run_demo_scenario], "RSI < 30, price < 150,
    volume > 2000000", a snapshot that satisfies it, and executors with the
    default risk parameters. *)

Module Sample.

Definition rsi_below_30 : Condition.t :=
  Condition.new "task_1" "RSI < 30" "RSI" "<" 30.

Definition price_below_150 : Condition.t :=
  Condition.new "task_2" "price < 150" "Price" "<" 150.

Definition volume_above_2m : Condition.t :=
  Condition.new "task_3" "volume > 2000000" "Volume" ">" 2000000.

Definition demo_conditions : list Condition.t :=
  [rsi_below_30; price_below_150; volume_above_2m].

(** A condition that was evaluated before it is registered again. *)
Definition stale_condition : Condition.t :=
  Condition.mk "task_1" "RSI < 30" "RSI" "<" 30 true (Some 25%float).

(** A condition on an indicator no snapshot below carries, satisfied by an
    earlier snapshot. *)
Definition macd_condition : Condition.t :=
  Condition.mk "task_4" "MACD > 0" "MACD" ">" 0 true (Some 1.5%float).

(** A condition whose operator is none of the four comparators (the parser's
    pattern [[<>=]+] lets such operators through). *)
Definition odd_operator : Condition.t :=
  Condition.new "task_5" "price == 120" "Price" "==" 120.

Definition snapshot (price : float) : MarketData.t :=
  MarketData.mk "AAPL" price 2500000 (<["RSI" := 25%float]> ∅) 1730000000.

(** A matcher with both callbacks of [main.py] registered, watching [cs]. *)
Definition matcher (cs : list Condition.t) : Matcher.t :=
  Matcher.mk cs ∅ [] ["on_conditions_updated"] ["on_trade_executed"] true.

Definition executor (daily_pnl : float) (using_real_broker : bool) : Executor.t :=
  Executor.mk 100000 RiskParameters.default [] daily_pnl 20023 using_real_broker.

(** An environment whose broker answers every order with [reply]. *)
Definition env (reply : Executor.broker_reply) : Executor.env :=
  Executor.mk_env (λ _, reply) 0.0001 1730000000.5 1730000000.75.

(** The fill that the simulation gives for [snapshot 50] under [env]: a
    broker may answer with the very same record. *)
Definition fill : TradeExecution.t :=
  TradeExecution.mk
    (TradeOrder.mk "AAPL" "market" 1000 (Some 50%float) None "IOC")
    (50 * (1 + 0.0001)) 1000 1730000000.5 "EXEC_1730000000750"
    (50 * (1 + 0.0001) * 1000 * 0.001).

End Sample.

(** * Properties of the matching engine *)

Section EvaluationPass.
Import Matcher.

Variable symbol : string.
Variable data : MarketData.t.

Lemma evaluate_condition_missing c :
  observed data c = None → _evaluate_condition c data = (c, false).
Proof.
  unfold observed, _evaluate_condition.
  repeat case_decide; try discriminate.
  intros Hnone. by rewrite Hnone.
Qed.

Lemma evaluate_condition_found c v :
  observed data c = Some v →
  _evaluate_condition c data =
    (Condition.set_current_value (Some v) c,
     if decide (Condition.operator c = "<") then (v <? Condition.value c)%float
     else if decide (Condition.operator c = ">") then (Condition.value c <? v)%float
     else if decide (Condition.operator c = "<=") then (v <=? Condition.value c)%float
     else if decide (Condition.operator c = ">=") then (Condition.value c <=? v)%float
     else false).
Proof.
  unfold observed, _evaluate_condition.
  intros Hv.
  destruct (decide (Condition.indicator c = "Price"));
    [|destruct (decide (Condition.indicator c = "Volume"))].
  - by injection Hv as ->.
  - by injection Hv as ->.
  - by rewrite Hv.
Qed.

Lemma evaluated_same_rule c : same_rule c (evaluated data c).
Proof.
  unfold evaluated. destruct (observed data c) as [v|] eqn:Hv.
  - rewrite (evaluate_condition_found _ _ Hv). by repeat split.
  - rewrite (evaluate_condition_missing _ Hv). by repeat split.
Qed.

Lemma evaluate_one_eq c u a :
  evaluate_one symbol data c u a =
    (evaluated data c, u || flips data c, a && Condition.completed (evaluated data c)).
Proof.
  unfold evaluate_one, flips, evaluated. simpl.
  destruct (_evaluate_condition c data) as [c' verdict]. simpl.
  by destruct verdict, (Condition.completed c), u, a.
Qed.

Lemma evaluate_loop_eq cs u a :
  evaluate_loop symbol data cs u a =
    (evaluated data <$> cs,
     u || existsb (flips data) cs,
     a && forallb (λ c, Condition.completed (evaluated data c)) cs).
Proof.
  revert u a. induction cs as [|c cs IH]; intros u a; simpl.
  - by rewrite orb_false_r, andb_true_r.
  - rewrite evaluate_one_eq, IH. by rewrite <- orb_assoc, <- andb_assoc.
Qed.

Lemma forallb_completed_evaluated cs :
  forallb Condition.completed (evaluated data <$> cs) =
    forallb (λ c, Condition.completed (evaluated data c)) cs.
Proof.
  induction cs as [|c cs IH]; [done|].
  rewrite fmap_cons. simpl. by rewrite IH.
Qed.

(** One pass, in closed form. *)
Lemma evaluate_conditions_for_symbol_eq self :
  _evaluate_conditions_for_symbol self symbol data =
    let self' := set_conditions (evaluated data <$> conditions self) self in
    (self',
     (if existsb (flips data) (conditions self) then _notify_update self' else [])
     ++ (if all_satisfied (conditions self') then _execute_trade self' symbol else [])).
Proof.
  unfold _evaluate_conditions_for_symbol. rewrite evaluate_loop_eq. simpl.
  unfold all_satisfied. simpl.
  rewrite forallb_completed_evaluated.
  by rewrite (andb_comm (truthy _)).
Qed.

Lemma pass_conditions self :
  conditions (_evaluate_conditions_for_symbol self symbol data).1
  = evaluated data <$> conditions self.
Proof. by rewrite evaluate_conditions_for_symbol_eq. Qed.

Lemma pass_trade_callbacks self :
  trade_executed_callbacks (_evaluate_conditions_for_symbol self symbol data).1
  = trade_executed_callbacks self.
Proof. by rewrite evaluate_conditions_for_symbol_eq. Qed.

Lemma trade_calls_of_app cb xs ys :
  trade_calls_of cb (xs ++ ys) = trade_calls_of cb xs + trade_calls_of cb ys.
Proof. unfold trade_calls_of. by rewrite List.filter_app, length_app. Qed.

Lemma trade_calls_of_notify cb self : trade_calls_of cb (_notify_update self) = 0.
Proof.
  unfold trade_calls_of, _notify_update.
  induction (update_callbacks self) as [|u us IH]; [done|].
  by rewrite fmap_cons.
Qed.

Lemma trade_calls_of_execute cb self :
  trade_calls_of cb (_execute_trade self symbol) = registrations cb self.
Proof.
  unfold trade_calls_of, _execute_trade, registrations.
  induction (trade_executed_callbacks self) as [|u us IH]; [done|].
  rewrite fmap_cons. simpl. destruct (String.eqb u cb); simpl; by rewrite IH.
Qed.

(** The trade callbacks are called in a pass exactly when the pass leaves
    the set fully satisfied, each registration once. *)
Lemma pass_trade_calls cb self :
  trade_calls_of cb (_evaluate_conditions_for_symbol self symbol data).2
  = if all_satisfied (conditions (_evaluate_conditions_for_symbol self symbol data).1)
    then registrations cb self else 0.
Proof.
  rewrite evaluate_conditions_for_symbol_eq. simpl.
  rewrite trade_calls_of_app.
  assert (trade_calls_of cb
            (if existsb (flips data) (conditions self)
             then _notify_update (set_conditions (evaluated data <$> conditions self) self)
             else []) = 0) as ->.
  { destruct (existsb _ _); [apply trade_calls_of_notify|done]. }
  destruct (all_satisfied _); [|done].
  by rewrite trade_calls_of_execute.
Qed.

(** A flag changed during the pass exactly when the loop saw a flip. *)
Lemma flag_changed_flips cs :
  flag_changed cs (evaluated data <$> cs) ↔ existsb (flips data) cs = true.
Proof.
  rewrite existsb_exists. unfold flag_changed, flips. split.
  - intros (i & c & c' & Hc & Hc' & Hne).
    rewrite list_lookup_fmap, Hc in Hc'. simpl in Hc'. injection Hc' as <-.
    exists c. split.
    + apply list_elem_of_In. by eapply list_elem_of_lookup_2.
    + destruct (Condition.completed (evaluated data c)), (Condition.completed c);
        simpl; congruence.
  - intros (c & Hin & Hflip).
    apply list_elem_of_In, list_elem_of_lookup in Hin as [i Hi].
    exists i, c, (evaluated data c). split; [done|]. split.
    + by rewrite list_lookup_fmap, Hi.
    + intros Heq. rewrite Heq in Hflip.
      by destruct (Condition.completed c).
Qed.

End EvaluationPass.

(** ** The claims about the evaluation pass *)

Lemma evaluate_all_empty self items :
  Matcher.conditions self = [] →
  Forall (λ calls, calls = []) (Matcher.evaluate_all self items).2.
Proof.
  revert self. induction items as [|[symbol data] items IH]; intros self Hempty.
  - constructor.
  - simpl. rewrite evaluate_conditions_for_symbol_eq. simpl.
    rewrite Hempty. simpl.
    specialize (IH (Matcher.set_conditions [] self) eq_refl).
    destruct (Matcher.evaluate_all _ items) as [self' later]. simpl in *.
    by constructor.
Qed.

(** C2 (vacuous set never fires).  While the condition list is empty, no
    evaluation pass calls a trade callback, whatever snapshots are evaluated:
    every pass makes no call at all. *)
Theorem empty_set_never_fires (self : Matcher.t) (items : list (string * MarketData.t)) :
  Matcher.conditions self = [] →
  Forall (λ calls, List.filter Matcher.is_trade_call calls = [])
         (Matcher.evaluate_all self items).2.
Proof.
  intros Hempty. eapply Forall_impl; [by apply evaluate_all_empty|].
  by intros calls ->.
Qed.

Lemma empty_set_never_fires_witness :
  Matcher.conditions (Sample.matcher []) = []
  ∧ Forall (λ calls, List.filter Matcher.is_trade_call calls = [])
      (Matcher.evaluate_all (Sample.matcher [])
         [("AAPL", Sample.snapshot 120); ("AAPL", Sample.snapshot 120)]).2.
Proof.
  split; [reflexivity|].
  apply (empty_set_never_fires (Sample.matcher [])
           [("AAPL", Sample.snapshot 120); ("AAPL", Sample.snapshot 120)]).
  reflexivity.
Defined.

(** C5 (missing indicator never satisfies).  A condition of the set whose
    indicator is neither "Price" nor "Volume" nor a key of the snapshot's
    indicator map keeps its [current_value] through the pass and has its
    flag false after it, whatever its state before. *)
Theorem missing_indicator_never_satisfies
    (self : Matcher.t) (symbol : string) (data : MarketData.t) (i : nat) (c : Condition.t) :
  Matcher.conditions self !! i = Some c →
  Condition.indicator c ≠ "Price" →
  Condition.indicator c ≠ "Volume" →
  MarketData.indicators data !! Condition.indicator c = None →
  ∃ c', Matcher.conditions (Matcher._evaluate_conditions_for_symbol self symbol data).1 !! i
          = Some c'
        ∧ Condition.current_value c' = Condition.current_value c
        ∧ Condition.completed c' = false.
Proof.
  intros Hi Hprice Hvolume Habsent.
  exists (Matcher.evaluated data c).
  rewrite pass_conditions, list_lookup_fmap, Hi. split; [done|].
  unfold Matcher.evaluated.
  rewrite evaluate_condition_missing; [done|].
  unfold Matcher.observed. by repeat case_decide.
Qed.

Lemma missing_indicator_never_satisfies_witness :
  ∃ c', Matcher.conditions
          (Matcher._evaluate_conditions_for_symbol
             (Sample.matcher [Sample.price_below_150; Sample.macd_condition])
             "AAPL" (Sample.snapshot 120)).1 !! 1
          = Some c'
        ∧ Condition.current_value c' = Condition.current_value Sample.macd_condition
        ∧ Condition.completed c' = false.
Proof.
  apply (missing_indicator_never_satisfies
           (Sample.matcher [Sample.price_below_150; Sample.macd_condition])
           "AAPL" (Sample.snapshot 120) 1 Sample.macd_condition).
  - reflexivity.
  - discriminate.
  - discriminate.
  - reflexivity.
Defined.

(** C8 (comparator correctness).  When the snapshot has a value [v] for the
    condition's indicator, [_evaluate_condition] stores [v] in [current_value]
    and returns the binary64 comparison of [v] against the threshold that the
    operator names, and the loop writes that verdict to the flag; with
    threshold 30 and value exactly 30.0, [>=] is satisfied and [>] is not. *)
Theorem comparator_correct (data : MarketData.t) (c : Condition.t) (v : float) :
  Matcher.observed data c = Some v →
  let r := Matcher._evaluate_condition c data in
  Condition.current_value r.1 = Some v
  ∧ Condition.completed (Matcher.evaluated data c) = r.2
  ∧ (Condition.operator c = "<" → r.2 = (v <? Condition.value c)%float)
  ∧ (Condition.operator c = ">" → r.2 = (Condition.value c <? v)%float)
  ∧ (Condition.operator c = "<=" → r.2 = (v <=? Condition.value c)%float)
  ∧ (Condition.operator c = ">=" → r.2 = (Condition.value c <=? v)%float)
  ∧ (Condition.value c = 30%float → v = 30%float →
     (Condition.operator c = ">=" → r.2 = true)
     ∧ (Condition.operator c = ">" → r.2 = false)).
Proof.
  intros Hv. simpl. unfold Matcher.evaluated.
  rewrite (evaluate_condition_found _ _ _ Hv). simpl.
  do 2 (split; [done|]).
  do 4 (split; [by intros ->|]).
  intros Hthreshold ->. rewrite Hthreshold.
  split; intros ->; reflexivity.
Qed.

Lemma comparator_correct_witness :
  let c := Condition.new "task_1" "RSI >= 30" "RSI" ">=" 30 in
  let data :=
    MarketData.mk "AAPL" 120 2500000 (<["RSI" := 30%float]> ∅) 1730000000 in
  Matcher.observed data c = Some 30%float
  ∧ Condition.value c = 30%float
  ∧ Condition.operator c = ">="
  ∧ (Matcher._evaluate_condition c data).2 = true.
Proof.
  do 3 (split; [reflexivity|]).
  refine (proj1 (proj2 (proj2 (proj2 (proj2 (proj2 (proj2
    (comparator_correct
       (MarketData.mk "AAPL" 120 2500000 (<["RSI" := 30%float]> ∅) 1730000000)
       (Condition.new "task_1" "RSI >= 30" "RSI" ">=" 30) 30%float _)))))) _ _) _);
    reflexivity.
Defined.

(** C9 (state-changed notification iff a flag flipped).  In every pass, a
    registered update callback is called, with the full condition set as the
    pass leaves it, if and only if the flag of at least one condition changed
    during the pass; and no update callback is ever given anything else. *)
Theorem state_changed_iff_flag_flipped
    (self : Matcher.t) (symbol : string) (data : MarketData.t) (cb : Matcher.callback) :
  cb ∈ Matcher.update_callbacks self →
  let r := Matcher._evaluate_conditions_for_symbol self symbol data in
  (Matcher.UpdateCall cb (Matcher.conditions r.1) ∈ r.2
   ↔ Matcher.flag_changed (Matcher.conditions self) (Matcher.conditions r.1))
  ∧ (∀ cb' cs, Matcher.UpdateCall cb' cs ∈ r.2 → cs = Matcher.conditions r.1)
  ∧ (¬ Matcher.flag_changed (Matcher.conditions self) (Matcher.conditions r.1) →
     List.filter Matcher.is_update_call r.2 = []).
Proof.
  intros Hcb. simpl.
  rewrite evaluate_conditions_for_symbol_eq. simpl.
  rewrite flag_changed_flips.
  assert (∀ cb' cs,
    Matcher.UpdateCall cb' cs ∉
      (if Matcher.all_satisfied (Matcher.evaluated data <$> Matcher.conditions self)
       then Matcher._execute_trade
              (Matcher.set_conditions (Matcher.evaluated data <$> Matcher.conditions self) self)
              symbol
       else [])) as Hfired.
  { intros cb' cs. destruct (Matcher.all_satisfied _); [|by apply not_elem_of_nil].
    unfold Matcher._execute_trade. rewrite list_elem_of_fmap. by intros (? & ? & ?). }
  destruct (existsb _ _) eqn:Hflip.
  - split; [|split].
    + split; [done|]. intros _. apply elem_of_app. left.
      unfold Matcher._notify_update. apply list_elem_of_fmap. by exists cb.
    + intros cb' cs [Hin|Hin]%elem_of_app; [|by apply Hfired in Hin].
      unfold Matcher._notify_update in Hin.
      apply list_elem_of_fmap in Hin as (? & Heq & _). by injection Heq.
    + by intros [].
  - split; [|split].
    + split; [|done]. intros [Hin|Hin]%elem_of_app; [by apply elem_of_nil in Hin|].
      by apply Hfired in Hin.
    + intros cb' cs [Hin|Hin]%elem_of_app; [by apply elem_of_nil in Hin|].
      by apply Hfired in Hin.
    + intros _. simpl. destruct (Matcher.all_satisfied _); [|done].
      unfold Matcher._execute_trade.
      induction (Matcher.trade_executed_callbacks _) as [|u us IH]; [done|].
      by rewrite fmap_cons.
Qed.

Lemma state_changed_iff_flag_flipped_witness :
  let self := Sample.matcher Sample.demo_conditions in
  let r := Matcher._evaluate_conditions_for_symbol self "AAPL" (Sample.snapshot 120) in
  "on_conditions_updated" ∈ Matcher.update_callbacks self
  ∧ (Matcher.UpdateCall "on_conditions_updated" (Matcher.conditions r.1) ∈ r.2
     ↔ Matcher.flag_changed (Matcher.conditions self) (Matcher.conditions r.1)).
Proof.
  assert ("on_conditions_updated"
          ∈ Matcher.update_callbacks (Sample.matcher Sample.demo_conditions)) as Hcb
    by (apply list_elem_of_here).
  split; [exact Hcb|].
  exact (proj1 (state_changed_iff_flag_flipped
                  (Sample.matcher Sample.demo_conditions) "AAPL" (Sample.snapshot 120)
                  "on_conditions_updated" Hcb)).
Defined.

Lemma evaluated_odd_operator data c :
  Condition.operator c ∉ ["<"; ">"; "<="; ">="] →
  Condition.completed (Matcher.evaluated data c) = false.
Proof.
  intros Hop. unfold Matcher.evaluated.
  destruct (Matcher.observed data c) as [v|] eqn:Hv.
  - rewrite (evaluate_condition_found _ _ _ Hv). simpl.
    repeat case_decide; try done; exfalso; apply Hop; set_solver.
  - by rewrite (evaluate_condition_missing _ _ Hv).
Qed.

(** C10 (evaluation frame).  A pass writes only [completed] and
    [current_value]: condition by condition, in order, [task_id],
    [description], [indicator], [operator] and the threshold are what they
    were, and nothing else of the matcher changes; in particular the
    snapshots it retains in [market_data] are untouched (the snapshot under
    evaluation is a value the pass only reads).  A condition whose operator is
    none of [<], [>], [<=], [>=] comes out unsatisfied: [_evaluate_condition]
    returns [False] for it, it does not raise. *)
Theorem evaluation_frame (self : Matcher.t) (symbol : string) (data : MarketData.t) :
  let self' := (Matcher._evaluate_conditions_for_symbol self symbol data).1 in
  Forall2 Matcher.same_rule (Matcher.conditions self) (Matcher.conditions self')
  ∧ Matcher.market_data self' = Matcher.market_data self
  ∧ Matcher.task_queue self' = Matcher.task_queue self
  ∧ Matcher.update_callbacks self' = Matcher.update_callbacks self
  ∧ Matcher.trade_executed_callbacks self' = Matcher.trade_executed_callbacks self
  ∧ Matcher.running self' = Matcher.running self
  ∧ Forall2 (λ c c', Condition.operator c ∉ ["<"; ">"; "<="; ">="] →
                     (Matcher._evaluate_condition c data).2 = false
                     ∧ Condition.completed c' = false)
      (Matcher.conditions self) (Matcher.conditions self').
Proof.
  simpl. rewrite evaluate_conditions_for_symbol_eq. simpl.
  split; [|do 5 (split; [done|])].
  - apply Forall2_fmap_r, Forall_Forall2_diag, Forall_forall.
    intros c _. apply evaluated_same_rule.
  - apply Forall2_fmap_r, Forall_Forall2_diag, Forall_forall.
    intros c _ Hop. pose proof (evaluated_odd_operator data c Hop) as Hflag.
    split; [|done].
    unfold Matcher.evaluated in Hflag.
    by destruct (Matcher._evaluate_condition c data).
Qed.

(** C7 as the code has it (registration keeps the fields).
    [add_conditions] appends the conditions it is given as they are, and the
    replacement idiom [conditions.clear(); add_conditions(new)] leaves exactly
    the given conditions: neither writes [completed] or [current_value].  The
    two fields are false and [None] in a condition the parser has just built,
    and in every condition after [reset_conditions]. *)
Theorem registration_keeps_fields (self : Matcher.t) (new_conditions : list Condition.t) :
  Matcher.conditions (Matcher.add_conditions self new_conditions).1
    = Matcher.conditions self ++ new_conditions
  ∧ Matcher.conditions (Matcher.replace_conditions self new_conditions).1 = new_conditions
  ∧ Forall (λ c, Condition.completed c = false ∧ Condition.current_value c = None)
      (Matcher.conditions (Matcher.reset_conditions self).1)
  ∧ (∀ task_id description indicator operator value,
       let c := Condition.new task_id description indicator operator value in
       Condition.completed c = false ∧ Condition.current_value c = None).
Proof.
  split; [done|]. split; [done|]. split; [|done].
  simpl. apply Forall_fmap, Forall_forall. by intros c _.
Qed.

(** C7, the claim as stated, fails: a condition registered with its flag set
    and a value observed keeps both through [add_conditions], and through the
    replacement idiom. *)
Lemma add_conditions_does_not_reset :
  Condition.completed Sample.stale_condition = true
  ∧ Condition.current_value Sample.stale_condition = Some 25%float
  ∧ Matcher.conditions (Matcher.add_conditions Matcher.init [Sample.stale_condition]).1
      = [Sample.stale_condition]
  ∧ Matcher.conditions
      (Matcher.replace_conditions (Sample.matcher Sample.demo_conditions)
         [Sample.stale_condition]).1
      = [Sample.stale_condition].
Proof. repeat split. Qed.

(** C1 as the code has it (the trigger is level-triggered).  Every pass that
    leaves the set fully satisfied calls the trade callbacks: over passes that
    all leave the set fully satisfied, a trade callback is called on each pass,
    once per registration, so [k+1] times over the snapshots [N..N+k] when it
    is registered once. *)
Theorem trigger_fires_on_every_satisfied_pass
    (self : Matcher.t) (items : list (string * MarketData.t)) (cb : Matcher.callback) :
  Matcher.stays_satisfied self items = true →
  Matcher.trade_calls_of cb <$> (Matcher.evaluate_all self items).2
  = replicate (length items) (Matcher.registrations cb self)
  ∧ Matcher.trade_calls_of cb (concat (Matcher.evaluate_all self items).2)
    = length items * Matcher.registrations cb self.
Proof.
  revert self. induction items as [|[symbol data] items IH]; intros self Hstays; [done|].
  simpl in *.
  pose proof (pass_trade_calls symbol data cb self) as Hpass.
  pose proof (pass_trade_callbacks symbol data self) as Hcbs.
  destruct (Matcher._evaluate_conditions_for_symbol self symbol data) as [self1 calls].
  simpl in *. apply andb_prop in Hstays as [Hnow Hlater].
  destruct (IH self1 Hlater) as [IHeach IHall].
  destruct (Matcher.evaluate_all self1 items) as [self2 later]. simpl in *.
  rewrite Hnow in Hpass.
  assert (Matcher.registrations cb self1 = Matcher.registrations cb self) as Hregs.
  { unfold Matcher.registrations. by rewrite Hcbs. }
  rewrite Hregs in IHeach, IHall. split.
  - f_equal; [exact Hpass|exact IHeach].
  - by rewrite trade_calls_of_app, Hpass, IHall.
Qed.

Lemma trigger_fires_on_every_satisfied_pass_witness :
  let self := Sample.matcher Sample.demo_conditions in
  let items := [("AAPL", Sample.snapshot 120); ("AAPL", Sample.snapshot 119);
                ("AAPL", Sample.snapshot 118)] in
  Matcher.stays_satisfied self items = true
  ∧ Matcher.trade_calls_of "on_trade_executed" (concat (Matcher.evaluate_all self items).2)
    = 3 * 1.
Proof.
  split; [reflexivity|].
  refine (proj2 (trigger_fires_on_every_satisfied_pass
           (Sample.matcher Sample.demo_conditions)
           [("AAPL", Sample.snapshot 120); ("AAPL", Sample.snapshot 119);
            ("AAPL", Sample.snapshot 118)] "on_trade_executed" _)).
  reflexivity.
Defined.

(** C1, the claim as stated, fails: the demo set is not satisfied before the
    first snapshot, both passes leave it fully satisfied, and the trade
    callback is called on each of them, twice in all and not once. *)
Lemma trigger_fires_again_while_satisfied :
  let self := Sample.matcher Sample.demo_conditions in
  let items := [("AAPL", Sample.snapshot 120); ("AAPL", Sample.snapshot 120)] in
  Matcher.all_satisfied (Matcher.conditions self) = false
  ∧ Matcher.stays_satisfied self items = true
  ∧ Matcher.trade_calls_of "on_trade_executed" <$> (Matcher.evaluate_all self items).2
    = [1; 1]
  ∧ Matcher.trade_calls_of "on_trade_executed" (concat (Matcher.evaluate_all self items).2)
    = 2.
Proof. repeat split. Qed.

(** * Python's conversions between [int] and [float] *)

Section Conversions.
Local Open Scope Z_scope.

Lemma digits2_pos_bounds p :
  2 ^ (Zpos (digits2_pos p) - 1) ≤ Zpos p < 2 ^ Zpos (digits2_pos p).
Proof.
  induction p as [p IH|p IH|]; simpl digits2_pos.
  - rewrite Pos2Z.inj_succ.
    replace (Z.succ (Zpos (digits2_pos p)) - 1) with (Z.succ (Zpos (digits2_pos p) - 1)) by lia.
    rewrite !Z.pow_succ_r by lia. lia.
  - rewrite Pos2Z.inj_succ.
    replace (Z.succ (Zpos (digits2_pos p)) - 1) with (Z.succ (Zpos (digits2_pos p) - 1)) by lia.
    rewrite !Z.pow_succ_r by lia. lia.
  - simpl. lia.
Qed.

Lemma digits2_pos_unique p d :
  2 ^ (d - 1) ≤ Zpos p < 2 ^ d → Zpos (digits2_pos p) = d.
Proof.
  intros [Hlo Hhi]. pose proof (digits2_pos_bounds p) as [Hlo' Hhi'].
  destruct (Z.lt_trichotomy (Zpos (digits2_pos p)) d) as [Hlt|[Heq|Hgt]]; [|done|].
  - assert (2 ^ Zpos (digits2_pos p) ≤ 2 ^ (d - 1)) by (apply Z.pow_le_mono_r; lia). lia.
  - assert (0 ≤ d ∨ d < 0) as [Hd|Hd] by lia.
    + assert (2 ^ d ≤ 2 ^ (Zpos (digits2_pos p) - 1)) by (apply Z.pow_le_mono_r; lia). lia.
    + rewrite (Z.pow_neg_r 2 d) in Hhi by lia. lia.
Qed.

Lemma digits2_pos_shift p n :
  Zpos (digits2_pos (p * 2 ^ n)) = Zpos (digits2_pos p) + Zpos n.
Proof.
  apply digits2_pos_unique.
  pose proof (digits2_pos_bounds p) as [Hlo Hhi].
  rewrite Pos2Z.inj_mul, Pos2Z.inj_pow.
  replace (Zpos (digits2_pos p) + Zpos n - 1) with ((Zpos (digits2_pos p) - 1) + Zpos n) by lia.
  rewrite !Z.pow_add_r by lia.
  assert (0 < 2 ^ Zpos n) by (apply Z.pow_pos_nonneg; lia).
  nia.
Qed.

Lemma pow2_xO m n : (m * 2 ^ n~0 = m * 2 ^ n * 2 ^ n)%positive.
Proof.
  apply Pos2Z.inj. rewrite !Pos2Z.inj_mul, !Pos2Z.inj_pow.
  replace (Zpos n~0) with (Zpos n + Zpos n) by lia.
  rewrite Z.pow_add_r by lia. lia.
Qed.

Lemma pow2_xI m n : (m * 2 ^ n~1 = (m * 2 ^ n * 2 ^ n)~0)%positive.
Proof.
  apply Pos2Z.inj. rewrite Pos2Z.inj_xO, !Pos2Z.inj_mul, !Pos2Z.inj_pow.
  replace (Zpos n~1) with (Zpos n + Zpos n + 1) by lia.
  rewrite !Z.pow_add_r by lia. lia.
Qed.

Lemma iter_pos_shr_1 n m :
  SpecFloat.iter_pos shr_1 n (Build_shr_record (Zpos (m * 2 ^ n)) false false)
  = Build_shr_record (Zpos m) false false.
Proof.
  revert m. induction n as [n IH|n IH|]; intros m; simpl SpecFloat.iter_pos.
  - rewrite pow2_xI. simpl. by rewrite !IH.
  - rewrite pow2_xO. by rewrite !IH.
  - by rewrite Pos.pow_1_r, Pos.mul_comm.
Qed.

Lemma iter_xO p n : Pos.iter xO p n = (p * 2 ^ n)%positive.
Proof.
  induction n as [|n IH] using Pos.peano_ind.
  - simpl. by rewrite Pos.pow_1_r, Pos.mul_comm.
  - rewrite Pos.iter_succ, IH, Pos.pow_succ_r. lia.
Qed.

Lemma fexp_53 d e : d = 53 → -1074 ≤ e → fexp prec emax (d + e) = e.
Proof. intros -> He. unfold fexp, SpecFloat.emin, prec, emax. lia. Qed.

Lemma binary_round_aux_exact sx mz ez :
  Zpos (digits2_pos mz) = 53 → -1074 ≤ ez ≤ 971 →
  binary_round_aux prec emax sx (Zpos mz) ez loc_Exact = S754_finite sx mz ez.
Proof.
  intros Hd [Hlo Hhi].
  assert (shr_fexp prec emax (Zpos mz) ez loc_Exact
          = (Build_shr_record (Zpos mz) false false, ez)) as Hshr.
  { unfold shr_fexp. simpl Zdigits2. rewrite (fexp_53 _ _ Hd Hlo), Z.sub_diag. done. }
  unfold binary_round_aux. rewrite Hshr. simpl. rewrite Hshr. simpl.
  replace (ez <=? emax - prec) with true; [done|].
  symmetry. apply Z.leb_le. unfold emax, prec. lia.
Qed.

Lemma valid_binary_exact sx mz ez :
  Zpos (digits2_pos mz) = 53 → -1074 ≤ ez ≤ 971 →
  valid_binary (S754_finite sx mz ez) = true.
Proof.
  intros Hd [Hlo Hhi]. unfold valid_binary, bounded, canonical_mantissa.
  rewrite (fexp_53 _ _ Hd Hlo), Z.eqb_refl. simpl.
  apply Z.leb_le. unfold emax, prec. lia.
Qed.

Lemma finite_not_infinity x s m e :
  Prim2SF x = S754_finite s m e → PrimFloat.is_infinity x = false.
Proof.
  unfold Prim2SF. destruct (PrimFloat.is_infinity x); [|done].
  by destruct (PrimFloat.is_nan x), (PrimFloat.is_zero x).
Qed.

(** The integer part of a float, when positive, rounds to a finite float. *)
Lemma normalize_int x shares :
  Py.int x = Py.Ok shares → 0 < shares →
  ∃ m e, binary_normalize prec emax shares 0 false = S754_finite false m e
         ∧ Zpos (digits2_pos m) = 53 ∧ -1074 ≤ e ≤ 971.
Proof.
  unfold Py.int. pose proof (Prim2SF_valid x) as Hvalid.
  destruct (Prim2SF x) as [s|s| |s m e]; try done.
  { intros [= <-]. lia. }
  unfold valid_binary, bounded, canonical_mantissa in Hvalid.
  apply andb_prop in Hvalid as [Hcanon Hbound].
  apply Z.eqb_eq in Hcanon. apply Z.leb_le in Hbound.
  unfold fexp, SpecFloat.emin, prec, emax in Hcanon, Hbound.
  unfold Py.ratio. destruct (0 <=? e) eqn:He.
  - apply Z.leb_le in He. rewrite Z.quot_1_r. intros [= <-] Hpos.
    assert (0 < 2 ^ e) as Hpow by (apply Z.pow_pos_nonneg; lia).
    destruct s; [lia|].
    assert (Zpos (digits2_pos m) = 53) as Hd by lia.
    destruct e as [|pe|pe]; [| |lia].
    + exists m, 0. rewrite Z.pow_0_r, Z.mul_1_r. simpl binary_normalize.
      unfold binary_round. simpl Z.add. rewrite Z.add_0_r, Hd.
      change (shl_align m 0 (fexp prec emax 53)) with (m, 0).
      cbv beta iota.
      rewrite binary_round_aux_exact by lia. split; [done|lia].
    + exists m, (Zpos pe).
      rewrite <- Pos2Z.inj_pow, <- Pos2Z.inj_mul. simpl binary_normalize.
      unfold binary_round.
      rewrite Z.add_0_r, digits2_pos_shift, Hd.
      assert (fexp prec emax (53 + Zpos pe) = Zpos pe) as Hfexp by (by apply fexp_53).
      rewrite Hfexp. unfold shl_align. rewrite Z.sub_0_r. cbv beta iota.
      unfold binary_round_aux.
      assert (shr_fexp prec emax (Zpos (m * 2 ^ pe)) 0 loc_Exact
              = (Build_shr_record (Zpos m) false false, Zpos pe)) as ->.
      { unfold shr_fexp. simpl Zdigits2.
        rewrite Z.add_0_r, digits2_pos_shift, Hd, Hfexp, Z.sub_0_r.
        simpl. by rewrite iter_pos_shr_1. }
      simpl shr_m. simpl loc_of_shr_record. simpl round_nearest_even.
      assert (shr_fexp prec emax (Zpos m) (Zpos pe) loc_Exact
              = (Build_shr_record (Zpos m) false false, Zpos pe)) as ->.
      { unfold shr_fexp. simpl Zdigits2. rewrite Hd, Hfexp, Z.sub_diag. done. }
      simpl shr_m.
      replace (Zpos pe <=? emax - prec) with true
        by (symmetry; apply Z.leb_le; unfold emax, prec; lia).
      split; [done|lia].
  - apply Z.leb_gt in He.
    assert (0 < 2 ^ (- e)) as Hpow by (apply Z.pow_pos_nonneg; lia).
    intros [= <-] Hpos.
    destruct s.
    { assert (Z.neg m ÷ 2 ^ (- e) ≤ 0); [|lia].
      rewrite <- (Z.opp_involutive (Z.neg m)), Z.quot_opp_l by lia.
      assert (0 ≤ - Z.neg m ÷ 2 ^ (- e)); [apply Z.quot_pos; lia|lia]. }
    assert (Zpos (digits2_pos m) ≤ 53) as Hd by lia.
    pose proof (digits2_pos_bounds m) as [_ Hm].
    assert (Zpos m < 2 ^ 53) as Hm53.
    { eapply Z.lt_le_trans; [exact Hm|]. apply Z.pow_le_mono_r; lia. }
    assert (Z.pos m ÷ 2 ^ (- e) ≤ Zpos m) as Hle.
    { rewrite Z.quot_div_nonneg by lia. apply Z.div_le_upper_bound; [lia|]. nia. }
    destruct (Z.pos m ÷ 2 ^ (- e)) as [|k|k] eqn:Hk; [lia| |lia].
    pose proof (digits2_pos_bounds k) as [Hklo Hkhi].
    assert (Zpos (digits2_pos k) ≤ 53) as Hdk.
    { destruct (Z.le_gt_cases (Zpos (digits2_pos k)) 53) as [|Hgt]; [done|].
      assert (2 ^ 53 ≤ 2 ^ (Zpos (digits2_pos k) - 1)) by (apply Z.pow_le_mono_r; lia).
      lia. }
    simpl binary_normalize. unfold binary_round. rewrite Z.add_0_r.
    assert (fexp prec emax (Zpos (digits2_pos k)) = Zpos (digits2_pos k) - 53) as ->.
    { unfold fexp, SpecFloat.emin, prec, emax. lia. }
    unfold shl_align. rewrite Z.sub_0_r.
    destruct (Zpos (digits2_pos k) - 53) as [|j|j] eqn:Hj; [|lia|].
    + exists k, 0. cbv beta iota.
      rewrite binary_round_aux_exact by lia. split; [done|lia].
    + exists (Pos.iter xO k j), (Zneg j).
      assert (Zpos (digits2_pos (Pos.iter xO k j)) = 53) as Hdj.
      { rewrite iter_xO, digits2_pos_shift. lia. }
      cbv beta iota.
      rewrite binary_round_aux_exact by lia. split; [done|lia].
Qed.

Lemma float_of_int_defined x shares :
  Py.int x = Py.Ok shares → 0 < shares → ∃ q, Py.float_of_int shares = Py.Ok q.
Proof.
  intros Hint Hpos.
  destruct (normalize_int x shares Hint Hpos) as (m & e & Hnorm & Hd & He).
  unfold Py.float_of_int. rewrite Hnorm.
  rewrite (finite_not_infinity _ false m e); [by eexists|].
  apply Prim2SF_SF2Prim. by apply valid_binary_exact.
Qed.

Lemma int_defined x :
  Py.is_finite x = true → ∃ z, Py.int x = Py.Ok z.
Proof.
  unfold Py.is_finite, Py.int, Prim2SF. intros [Hnan Hinf]%andb_prop.
  apply negb_true_iff in Hnan, Hinf. rewrite Hnan, Hinf.
  destruct (PrimFloat.is_zero x); [by eexists|].
  destruct (Z.frexp x) as [r exp].
  destruct (shr_fexp _ _ _ _ _) as [shr e'].
  destruct (shr_m shr); [by eexists| |by eexists].
  destruct (Py.ratio _ _ _). by eexists.
Qed.


End Conversions.

(** * Properties of the risk-gated executor *)

Section RiskGate.
Import Executor.

Variable self : Executor.t.
Variable symbol : string.
Variable market_data : MarketData.t.
Variable conditions : list Condition.t.
Variable E : Executor.env.

Lemma execute_trade_rejected_by_limits :
  _check_risk_limits self symbol market_data = false →
  execute_trade self symbol market_data conditions E = Py.Ok (mk_outcome self None []).
Proof. unfold execute_trade. by intros ->. Qed.

Lemma check_risk_limits_false :
  (daily_pnl self <? - RiskParameters.max_daily_loss (risk_params self))%float = true
  ∨ (RiskParameters.max_position_size (risk_params self)
     <? MarketData.price market_data * 100)%float = true →
  _check_risk_limits self symbol market_data = false.
Proof.
  unfold _check_risk_limits. intros [Hloss|Hsize].
  - by rewrite Hloss.
  - rewrite Hsize. by case_match.
Qed.


Lemma simulate_execution_ok order quantity millis :
  Py.float_of_int (TradeOrder.quantity order) = Py.Ok quantity →
  Py.int (time_id E * 1000)%float = Py.Ok millis →
  _simulate_execution order market_data E =
    Some (TradeExecution.mk order
            (MarketData.price market_data * (1 + uniform E))%float
            (TradeOrder.quantity order) (time_stamp E)
            ("EXEC_" +:+ Py.str_int millis)
            (MarketData.price market_data * (1 + uniform E) * quantity * 0.001)%float).
Proof. unfold _simulate_execution. by intros -> ->. Qed.

End RiskGate.

(** ** The claims about trade execution *)

(** C3 as the code has it (risk rejection).  When the running daily P&L is
    strictly below [-max_daily_loss], or the notional the check estimates,
    the price of 100 shares, exceeds [max_position_size], [execute_trade]
    returns no execution, leaves the executor, its ledger included, as it
    was, and hands no order to the broker. *)
Theorem risk_rejection
    (self : Executor.t) (symbol : string) (market_data : MarketData.t)
    (conditions : list Condition.t) (E : Executor.env) :
  (Executor.daily_pnl self
   <? - RiskParameters.max_daily_loss (Executor.risk_params self))%float = true
  ∨ (RiskParameters.max_position_size (Executor.risk_params self)
     <? MarketData.price market_data * 100)%float = true →
  Executor.execute_trade self symbol market_data conditions E
  = Py.Ok (Executor.mk_outcome self None []).
Proof.
  intros Hlimit. apply execute_trade_rejected_by_limits.
  by apply check_risk_limits_false.
Qed.

Lemma risk_rejection_witness :
  (Executor.daily_pnl (Sample.executor (-1200) false)
   <? - RiskParameters.max_daily_loss
         (Executor.risk_params (Sample.executor (-1200) false)))%float = true
  ∧ Executor.execute_trade (Sample.executor (-1200) false) "AAPL" (Sample.snapshot 50)
      Sample.demo_conditions (Sample.env Executor.Declined)
    = Py.Ok (Executor.mk_outcome (Sample.executor (-1200) false) None []).
Proof.
  split; [reflexivity|].
  apply (risk_rejection (Sample.executor (-1200) false) "AAPL" (Sample.snapshot 50)
           Sample.demo_conditions (Sample.env Executor.Declined)).
  left. reflexivity.
Defined.

(** C3, the claim as stated, fails at the boundary: with the daily P&L
    equal to [-max_daily_loss] the check lets the trigger through, and
    [execute_trade] returns an execution and appends it to the ledger. *)
Lemma daily_loss_at_the_limit_passes :
  let self := Sample.executor (-1000) false in
  let r := Executor.execute_trade self "AAPL" (Sample.snapshot 50)
             Sample.demo_conditions (Sample.env Executor.Declined) in
  (Executor.daily_pnl self
   <=? - RiskParameters.max_daily_loss (Executor.risk_params self))%float = true
  ∧ Executor.execution_of r = Some Sample.fill
  ∧ r = Py.Ok (Executor.mk_outcome (Executor.append_trade Sample.fill self)
                 (Some Sample.fill) [])
  ∧ Executor.executed_trades (Executor.append_trade Sample.fill self) = [Sample.fill].
Proof. repeat split. Qed.




Lemma position_size_is_int self market_data shares :
  Executor._calculate_position_size self market_data = Py.Ok shares →
  ∃ position_size, Py.int position_size = Py.Ok shares.
Proof.
  unfold Executor._calculate_position_size.
  destruct (Py.truediv _ _) as [position_size|]; [|done].
  intros Hint. by exists position_size.
Qed.

(** C6 as the code has it (simulated fill).  For a trigger that passes the
    risk gate with a positive share count, when no real broker is connected,
    or when the broker call raises, and [time.time() * 1000] is a finite
    number, [execute_trade] returns one execution and appends exactly that one
    to the ledger: its order is the market order for the share count,
    [executed_quantity] is the order quantity, [execution_id] is the string
    "EXEC_" followed by [int(time.time() * 1000)], and [commission] is
    [executed_price * quantity * 0.001], the quantity converted to a float.
    The record holds the six fields [order], [executed_price],
    [executed_quantity], [timestamp], [execution_id] and [commission] and
    nothing that marks it as simulated: a real broker that fills the order
    with the same values makes [execute_trade] return the identical record. *)
Theorem simulated_fill
    (self : Executor.t) (symbol : string) (market_data : MarketData.t)
    (conditions : list Condition.t) (E : Executor.env) (shares : Z) :
  Executor._check_risk_limits self symbol market_data = true →
  Executor._calculate_position_size self market_data = Py.Ok shares →
  (0 < shares)%Z →
  Executor.using_real_broker self = false
  ∨ Executor.broker E (Executor._create_order symbol market_data shares) = Executor.Failed →
  Py.is_finite (Executor.time_id E * 1000)%float = true →
  ∃ e o quantity millis,
    Executor.execute_trade self symbol market_data conditions E = Py.Ok o
    ∧ Executor.returned o = Some e
    ∧ Executor.executed_trades (Executor.executor o) = Executor.executed_trades self ++ [e]
    ∧ Executor._simulate_execution (Executor._create_order symbol market_data shares)
        market_data E = Some e
    ∧ TradeExecution.order e = Executor._create_order symbol market_data shares
    ∧ TradeExecution.executed_quantity e = TradeOrder.quantity (TradeExecution.order e)
    ∧ TradeExecution.executed_quantity e = shares
    ∧ Py.float_of_int (TradeExecution.executed_quantity e) = Py.Ok quantity
    ∧ TradeExecution.commission e
      = (TradeExecution.executed_price e * quantity * 0.001)%float
    ∧ Py.int (Executor.time_id E * 1000)%float = Py.Ok millis
    ∧ TradeExecution.execution_id e = "EXEC_" +:+ Py.str_int millis
    ∧ TradeExecution.execution_id e ≠ ""
    ∧ e = TradeExecution.mk
            (Executor._create_order symbol market_data shares)
            (MarketData.price market_data * (1 + Executor.uniform E))%float
            shares
            (Executor.time_stamp E)
            ("EXEC_" +:+ Py.str_int millis)
            (MarketData.price market_data * (1 + Executor.uniform E)
             * quantity * 0.001)%float
    ∧ (∀ (real : Executor.t) (E' : Executor.env),
         Executor.using_real_broker real = true →
         Executor._check_risk_limits real symbol market_data = true →
         Executor._calculate_position_size real market_data = Py.Ok shares →
         Executor.broker E' (Executor._create_order symbol market_data shares)
         = Executor.Filled e →
         Executor.execution_of
           (Executor.execute_trade real symbol market_data conditions E')
         = Some e).
Proof.
  intros Hlimits Hsize Hpos Hmode Hclock.
  destruct (position_size_is_int _ _ _ Hsize) as [position_size Hint].
  destruct (float_of_int_defined _ _ Hint Hpos) as [quantity Hquantity].
  destruct (int_defined _ Hclock) as [millis Hmillis].
  pose proof (simulate_execution_ok market_data E
                (Executor._create_order symbol market_data shares) quantity millis
                Hquantity Hmillis) as Hsim.
  eexists. eexists. exists quantity, millis.
  unfold Executor.execute_trade at 1. rewrite Hlimits, Hsize. simpl.
  rewrite (proj2 (Z.leb_gt shares 0) Hpos).
  assert ((if Executor.using_real_broker self
           then Executor._execute_real_broker
                  (Executor._create_order symbol market_data shares) market_data E
           else Executor._simulate_execution
                  (Executor._create_order symbol market_data shares) market_data E)
          = Executor._simulate_execution
              (Executor._create_order symbol market_data shares) market_data E) as ->.
  { destruct Hmode as [->|Hfailed]; [done|].
    destruct (Executor.using_real_broker self); [|done].
    unfold Executor._execute_real_broker. by rewrite Hfailed. }
  rewrite Hsim. split; [reflexivity|].
  do 12 (split; [done|]).
  intros real E' Hreal Hlimits' Hsize' Hfilled.
  unfold Executor.execute_trade, Executor._execute_real_broker.
  rewrite Hlimits', Hsize', Hreal. simpl.
  rewrite (proj2 (Z.leb_gt shares 0) Hpos).
  by rewrite Hfilled.
Qed.

Lemma simulated_fill_witness :
  let self := Sample.executor 0 true in
  let E := Sample.env Executor.Failed in
  Executor._check_risk_limits self "AAPL" (Sample.snapshot 50) = true
  ∧ Executor._calculate_position_size self (Sample.snapshot 50) = Py.Ok 1000%Z
  ∧ Executor.broker E (Executor._create_order "AAPL" (Sample.snapshot 50) 1000)
    = Executor.Failed
  ∧ Py.is_finite (Executor.time_id E * 1000)%float = true
  ∧ ∃ e o quantity millis,
      Executor.execute_trade self "AAPL" (Sample.snapshot 50) Sample.demo_conditions E
      = Py.Ok o
      ∧ Executor.returned o = Some e
      ∧ Executor.executed_trades (Executor.executor o)
        = Executor.executed_trades self ++ [e]
      ∧ Executor._simulate_execution
          (Executor._create_order "AAPL" (Sample.snapshot 50) 1000) (Sample.snapshot 50) E
        = Some e
      ∧ TradeExecution.order e = Executor._create_order "AAPL" (Sample.snapshot 50) 1000
      ∧ TradeExecution.executed_quantity e = TradeOrder.quantity (TradeExecution.order e)
      ∧ TradeExecution.executed_quantity e = 1000%Z
      ∧ Py.float_of_int (TradeExecution.executed_quantity e) = Py.Ok quantity
      ∧ TradeExecution.commission e
        = (TradeExecution.executed_price e * quantity * 0.001)%float
      ∧ Py.int (Executor.time_id E * 1000)%float = Py.Ok millis
      ∧ TradeExecution.execution_id e = "EXEC_" +:+ Py.str_int millis
      ∧ TradeExecution.execution_id e ≠ ""
      ∧ e = TradeExecution.mk
              (Executor._create_order "AAPL" (Sample.snapshot 50) 1000)
              (MarketData.price (Sample.snapshot 50) * (1 + Executor.uniform E))%float
              1000
              (Executor.time_stamp E)
              ("EXEC_" +:+ Py.str_int millis)
              (MarketData.price (Sample.snapshot 50) * (1 + Executor.uniform E)
               * quantity * 0.001)%float
      ∧ (∀ (real : Executor.t) (E' : Executor.env),
           Executor.using_real_broker real = true →
           Executor._check_risk_limits real "AAPL" (Sample.snapshot 50) = true →
           Executor._calculate_position_size real (Sample.snapshot 50) = Py.Ok 1000%Z →
           Executor.broker E' (Executor._create_order "AAPL" (Sample.snapshot 50) 1000)
           = Executor.Filled e →
           Executor.execution_of
             (Executor.execute_trade real "AAPL" (Sample.snapshot 50)
                Sample.demo_conditions E')
           = Some e).
Proof.
  do 4 (split; [reflexivity|]).
  apply (simulated_fill (Sample.executor 0 true) "AAPL" (Sample.snapshot 50)
           Sample.demo_conditions (Sample.env Executor.Failed) 1000).
  - reflexivity.
  - reflexivity.
  - lia.
  - right. reflexivity.
  - reflexivity.
Defined.

(** C6, the claim as stated, fails.  A simulated fill carries no mark: a
    broker that answers with the same record makes [execute_trade] return
    what the simulation returns.  And one kind of broker failure gets no
    execution at all: when the broker reports its failure by returning [None],
    as the shipped brokers do, [execute_trade] returns no execution and leaves
    the ledger empty. *)
Lemma no_fallback_and_no_simulation_flag :
  let cs := Sample.demo_conditions in
  let order := Executor._create_order "AAPL" (Sample.snapshot 50) 1000 in
  Executor.execute_trade (Sample.executor 0 true) "AAPL" (Sample.snapshot 50) cs
    (Sample.env Executor.Declined)
  = Py.Ok (Executor.mk_outcome (Sample.executor 0 true) None [order])
  ∧ Executor.executed_trades (Sample.executor 0 true) = []
  ∧ Executor.execution_of
      (Executor.execute_trade (Sample.executor 0 false) "AAPL" (Sample.snapshot 50) cs
         (Sample.env Executor.Declined))
    = Some Sample.fill
  ∧ Executor.execution_of
      (Executor.execute_trade (Sample.executor 0 true) "AAPL" (Sample.snapshot 50) cs
         (Sample.env (Executor.Filled Sample.fill)))
    = Some Sample.fill.
Proof. repeat split. Qed.

(** * Further properties of the matching engine *)

Section Passes.
Import Matcher.

Lemma observed_same_rule data c c' :
  same_rule c c' → observed data c' = observed data c.
Proof. intros (_ & _ & Hind & _). unfold observed. by rewrite Hind. Qed.

Lemma completed_evaluated_same_rule data c c' :
  same_rule c c' →
  Condition.completed (evaluated data c') = Condition.completed (evaluated data c).
Proof.
  intros Hrule. pose proof (observed_same_rule data c c' Hrule) as Hobs.
  destruct Hrule as (_ & _ & _ & Hop & Hval).
  unfold evaluated. destruct (observed data c) as [v|] eqn:Hv.
  - rewrite (evaluate_condition_found _ _ _ Hv), (evaluate_condition_found _ _ _ Hobs).
    simpl. by rewrite Hop, Hval.
  - by rewrite (evaluate_condition_missing _ _ Hv), (evaluate_condition_missing _ _ Hobs).
Qed.

Lemma same_rule_trans c1 c2 c3 : same_rule c1 c2 → same_rule c2 c3 → same_rule c1 c3.
Proof.
  intros (? & ? & ? & ? & ?) (? & ? & ? & ? & ?). repeat split; congruence.
Qed.

Lemma evaluated_idem data c : evaluated data (evaluated data c) = evaluated data c.
Proof.
  pose proof (observed_same_rule data c _ (evaluated_same_rule data c)) as Hobs.
  unfold evaluated in *. destruct (observed data c) as [v|] eqn:Hv.
  - rewrite (evaluate_condition_found _ _ _ Hv) in *.
    rewrite (evaluate_condition_found _ _ _ Hobs). by destruct c.
  - rewrite (evaluate_condition_missing _ _ Hv) in *.
    rewrite (evaluate_condition_missing _ _ Hobs). by destruct c.
Qed.

Lemma flips_evaluated data c : flips data (evaluated data c) = false.
Proof.
  unfold flips. rewrite evaluated_idem.
  by destruct (Condition.completed (evaluated data c)).
Qed.

Lemma evaluate_all_app self xs ys :
  evaluate_all self (xs ++ ys) =
    ((evaluate_all (evaluate_all self xs).1 ys).1,
     (evaluate_all self xs).2 ++ (evaluate_all (evaluate_all self xs).1 ys).2).
Proof.
  revert self. induction xs as [|[symbol data] xs IH]; intros self; simpl.
  - by destruct (evaluate_all self ys).
  - destruct (_evaluate_conditions_for_symbol self symbol data) as [self1 calls].
    rewrite IH. by destruct (evaluate_all self1 xs).
Qed.

(** The rules of the set never change, however many passes are run. *)
Lemma evaluate_all_same_rule self items :
  Forall2 same_rule (conditions self) (conditions (evaluate_all self items).1).
Proof.
  revert self. induction items as [|[symbol data] items IH]; intros self; simpl.
  - apply Forall_Forall2_diag, Forall_forall. by intros c _.
  - pose proof (pass_conditions symbol data self) as Hpass.
    destruct (_evaluate_conditions_for_symbol self symbol data) as [self1 calls].
    specialize (IH self1). destruct (evaluate_all self1 items) as [self2 later].
    simpl in *. rewrite Hpass in IH.
    rewrite Forall2_fmap_l in IH.
    eapply Forall2_impl; [exact IH|]. intros c c' Hrule. simpl in Hrule.
    eapply same_rule_trans; [apply evaluated_same_rule|exact Hrule].
Qed.

End Passes.

Section PassProperties.
Import Matcher.

Lemma existsb_flips_evaluated data cs :
  existsb (flips data) (evaluated data <$> cs) = false.
Proof.
  induction cs as [|c cs IH]; [done|].
  rewrite fmap_cons. simpl. by rewrite flips_evaluated, IH.
Qed.

Lemma no_update_call_in_execute self symbol :
  List.filter is_update_call (_execute_trade self symbol) = [].
Proof.
  unfold _execute_trade.
  induction (trade_executed_callbacks self) as [|cb cbs IH]; [done|].
  by rewrite fmap_cons.
Qed.

Lemma no_trade_call_in_notify self :
  List.filter is_trade_call (_notify_update self) = [].
Proof.
  unfold _notify_update.
  induction (update_callbacks self) as [|cb cbs IH]; [done|].
  by rewrite fmap_cons.
Qed.

Lemma all_update_calls_in_notify self :
  Forall (λ c, is_update_call c = true) (_notify_update self).
Proof.
  unfold _notify_update. apply Forall_fmap, Forall_forall. by intros cb _.
Qed.

Lemma all_satisfied_blocked cs c :
  c ∈ cs → Condition.completed c = false → all_satisfied cs = false.
Proof.
  intros Hin Hflag. unfold all_satisfied.
  apply andb_false_iff. right. apply not_true_iff_false. intros Hall.
  rewrite forallb_forall in Hall.
  apply list_elem_of_In, Hall in Hin. congruence.
Qed.

(** X1.  Evaluating the same snapshot a second time changes no condition
    and calls no update callback, whatever symbol it is evaluated for. *)
Theorem repeated_snapshot_is_silent
    (self : Matcher.t) (symbol symbol' : string) (data : MarketData.t) :
  let first := _evaluate_conditions_for_symbol self symbol data in
  let second := _evaluate_conditions_for_symbol first.1 symbol' data in
  conditions second.1 = conditions first.1
  ∧ List.filter is_update_call second.2 = [].
Proof.
  simpl. rewrite !evaluate_conditions_for_symbol_eq. simpl.
  assert (evaluated data <$> (evaluated data <$> conditions self)
          = evaluated data <$> conditions self) as Hidem.
  { rewrite <- list_fmap_compose. apply list_fmap_ext.
    intros i c _. simpl. apply evaluated_idem. }
  split; [done|].
  rewrite existsb_flips_evaluated. simpl.
  destruct (all_satisfied _); [|done].
  apply no_update_call_in_execute.
Qed.

(** X2.  After any run of passes, the flags are the verdicts of the rules
    on the last snapshot evaluated: earlier snapshots and the flags held
    before leave no trace in them. *)
Theorem flags_follow_the_last_snapshot
    (self : Matcher.t) (items : list (string * MarketData.t))
    (symbol : string) (data : MarketData.t) :
  Condition.completed <$> conditions (evaluate_all self (items ++ [(symbol, data)])).1
  = (λ c, Condition.completed (evaluated data c)) <$> conditions self.
Proof.
  rewrite evaluate_all_app. simpl.
  pose proof (evaluate_all_same_rule self items) as Hrules.
  destruct (evaluate_all self items) as [self1 calls]. simpl in *.
  pose proof (pass_conditions symbol data self1) as Hpass.
  destruct (_evaluate_conditions_for_symbol self1 symbol data) as [self2 calls2].
  simpl in *. rewrite Hpass, <- list_fmap_compose. clear Hpass.
  induction Hrules as [|c c' cs cs' Hrule _ IH]; [done|].
  rewrite !fmap_cons. simpl. f_equal; [|exact IH].
  by apply completed_evaluated_same_rule.
Qed.

(** X3.  Over any run of passes, a trade callback is called once per
    registration on each pass that leaves the set fully satisfied, and on no
    other pass. *)
Theorem trade_calls_count_satisfied_passes
    (self : Matcher.t) (items : list (string * MarketData.t)) (cb : callback) :
  trade_calls_of cb (concat (evaluate_all self items).2)
  = satisfied_passes self items * registrations cb self.
Proof.
  revert self. induction items as [|[symbol data] items IH]; intros self; [done|].
  simpl.
  pose proof (pass_trade_calls symbol data cb self) as Hpass.
  pose proof (pass_trade_callbacks symbol data self) as Hcbs.
  destruct (_evaluate_conditions_for_symbol self symbol data) as [self1 calls].
  specialize (IH self1).
  destruct (evaluate_all self1 items) as [self2 later]. simpl in *.
  assert (registrations cb self1 = registrations cb self) as Hregs.
  { unfold registrations. by rewrite Hcbs. }
  rewrite trade_calls_of_app, Hpass, IH, Hregs.
  destruct (all_satisfied (conditions self1)); simpl; lia.
Qed.

(** X4.  A snapshot that lacks the indicator of one condition of the set
    triggers nothing: the pass calls no trade callback, whatever the other
    conditions are. *)
Theorem missing_indicator_blocks_trigger
    (self : Matcher.t) (symbol : string) (data : MarketData.t) (c : Condition.t) :
  c ∈ conditions self →
  observed data c = None →
  List.filter is_trade_call (_evaluate_conditions_for_symbol self symbol data).2 = [].
Proof.
  intros Hin Hnone. rewrite evaluate_conditions_for_symbol_eq. simpl.
  rewrite List.filter_app.
  assert (all_satisfied (evaluated data <$> conditions self) = false) as ->.
  { apply (all_satisfied_blocked _ (evaluated data c)).
    - apply list_elem_of_fmap. by exists c.
    - unfold evaluated. by rewrite (evaluate_condition_missing _ _ Hnone). }
  destruct (existsb _ _); [|done].
  by rewrite no_trade_call_in_notify.
Qed.

Lemma missing_indicator_blocks_trigger_witness :
  Sample.macd_condition ∈ conditions (Sample.matcher [Sample.price_below_150; Sample.macd_condition])
  ∧ observed (Sample.snapshot 120) Sample.macd_condition = None
  ∧ List.filter is_trade_call
      (_evaluate_conditions_for_symbol
         (Sample.matcher [Sample.price_below_150; Sample.macd_condition])
         "AAPL" (Sample.snapshot 120)).2 = [].
Proof.
  assert (Sample.macd_condition
          ∈ conditions (Sample.matcher [Sample.price_below_150; Sample.macd_condition]))
    as Hin by (apply list_elem_of_further, list_elem_of_here).
  split; [exact Hin|]. split; [reflexivity|].
  exact (missing_indicator_blocks_trigger
           (Sample.matcher [Sample.price_below_150; Sample.macd_condition])
           "AAPL" (Sample.snapshot 120) Sample.macd_condition Hin eq_refl).
Defined.

(** X5.  A set that holds a condition whose operator is none of [<], [>],
    [<=], [>=] never triggers: no pass of any run calls a trade callback. *)
Theorem unknown_operator_disables_the_set
    (self : Matcher.t) (items : list (string * MarketData.t)) (c : Condition.t) :
  c ∈ conditions self →
  Condition.operator c ∉ comparators →
  Forall (λ calls, List.filter is_trade_call calls = []) (evaluate_all self items).2.
Proof.
  revert self c. induction items as [|[symbol data] items IH]; intros self c Hin Hop.
  { constructor. }
  simpl.
  pose proof (evaluate_conditions_for_symbol_eq symbol data self) as Hpass.
  destruct (_evaluate_conditions_for_symbol self symbol data) as [self1 calls].
  simpl in Hpass. injection Hpass as -> ->.
  assert (evaluated data c ∈ evaluated data <$> conditions self) as Hin'.
  { apply list_elem_of_fmap. by exists c. }
  assert (Condition.operator (evaluated data c) ∉ comparators) as Hop'.
  { by destruct (evaluated_same_rule data c) as (_ & _ & _ & -> & _). }
  specialize (IH (set_conditions (evaluated data <$> conditions self) self)
                 (evaluated data c) Hin' Hop').
  destruct (evaluate_all _ items) as [self2 later]. simpl in *.
  constructor; [|exact IH].
  rewrite List.filter_app.
  rewrite (all_satisfied_blocked _ (evaluated data c) Hin'
             (evaluated_odd_operator data c Hop)).
  destruct (existsb _ _); [|done].
  by rewrite no_trade_call_in_notify.
Qed.

Lemma unknown_operator_disables_the_set_witness :
  let self := Sample.matcher [Sample.price_below_150; Sample.odd_operator] in
  let items := [("AAPL", Sample.snapshot 120); ("AAPL", Sample.snapshot 119)] in
  Sample.odd_operator ∈ conditions self
  ∧ Forall (λ calls, List.filter is_trade_call calls = []) (evaluate_all self items).2.
Proof.
  assert (Sample.odd_operator
          ∈ conditions (Sample.matcher [Sample.price_below_150; Sample.odd_operator]))
    as Hin by (apply list_elem_of_further, list_elem_of_here).
  split; [exact Hin|].
  apply (unknown_operator_disables_the_set
           (Sample.matcher [Sample.price_below_150; Sample.odd_operator])
           [("AAPL", Sample.snapshot 120); ("AAPL", Sample.snapshot 119)]
           Sample.odd_operator Hin).
  unfold comparators. intros Hmem.
  repeat (apply elem_of_cons in Hmem as [Heq|Hmem]; [discriminate|]).
  by apply elem_of_nil in Hmem.
Defined.

End PassProperties.

Section QueueAndReset.
Import Matcher.

(** X6.  A trade callback is only ever called for the symbol under
    evaluation and with the whole condition set as the pass leaves it, which
    is then not empty and has every flag set. *)
Theorem trade_callback_sees_satisfied_set
    (self : Matcher.t) (symbol : string) (data : MarketData.t)
    (cb : callback) (s : string) (cs : list Condition.t) :
  TradeCall cb s cs ∈ (_evaluate_conditions_for_symbol self symbol data).2 →
  s = symbol
  ∧ cs = conditions (_evaluate_conditions_for_symbol self symbol data).1
  ∧ cs ≠ []
  ∧ Forall (λ c, Condition.completed c = true) cs
  ∧ cb ∈ trade_executed_callbacks self.
Proof.
  rewrite evaluate_conditions_for_symbol_eq. simpl.
  intros [Hin|Hin]%elem_of_app.
  - destruct (existsb _ _); [|by apply elem_of_nil in Hin].
    unfold _notify_update in Hin. apply list_elem_of_fmap in Hin as (? & ? & _).
    discriminate.
  - destruct (all_satisfied _) eqn:Hall; [|by apply elem_of_nil in Hin].
    unfold _execute_trade in Hin. simpl in Hin.
    apply list_elem_of_fmap in Hin as (cb' & Heq & Hcb).
    injection Heq as -> -> ->.
    unfold all_satisfied in Hall. apply andb_prop in Hall as [Hne Hall].
    repeat split; try done.
    + intros Hnil. by rewrite Hnil in Hne.
    + apply Forall_forall. intros c Hc.
      rewrite forallb_forall in Hall. by apply Hall, list_elem_of_In.
Qed.

Lemma trade_callback_sees_satisfied_set_witness :
  let self := Sample.matcher Sample.demo_conditions in
  let r := _evaluate_conditions_for_symbol self "AAPL" (Sample.snapshot 120) in
  TradeCall "on_trade_executed" "AAPL" (conditions r.1) ∈ r.2
  ∧ Forall (λ c, Condition.completed c = true) (conditions r.1).
Proof.
  assert (TradeCall "on_trade_executed" "AAPL"
            (conditions (_evaluate_conditions_for_symbol
                           (Sample.matcher Sample.demo_conditions) "AAPL"
                           (Sample.snapshot 120)).1)
          ∈ (_evaluate_conditions_for_symbol
               (Sample.matcher Sample.demo_conditions) "AAPL" (Sample.snapshot 120)).2)
    as Hin by (apply list_elem_of_further, list_elem_of_here).
  split; [exact Hin|].
  exact (proj1 (proj2 (proj2 (proj2
    (trade_callback_sees_satisfied_set (Sample.matcher Sample.demo_conditions)
       "AAPL" (Sample.snapshot 120) "on_trade_executed" "AAPL" _ Hin))))).
Defined.

(** X7.  [reset_conditions] keeps every rule in place, clears the state so
    that the set is not satisfied, is idempotent, and calls every update
    callback once with the cleared set; the pass that follows a reset calls
    the update callbacks exactly when its snapshot satisfies some
    condition. *)
Theorem reset_conditions_clears_state
    (self : Matcher.t) (symbol : string) (data : MarketData.t) :
  let r := reset_conditions self in
  Forall2 same_rule (conditions self) (conditions r.1)
  ∧ (reset_conditions r.1).1 = r.1
  ∧ all_satisfied (conditions r.1) = false
  ∧ r.2 = (λ cb, UpdateCall cb (conditions r.1)) <$> update_callbacks self
  ∧ List.filter is_update_call (_evaluate_conditions_for_symbol r.1 symbol data).2
    = if existsb Condition.completed
           (conditions (_evaluate_conditions_for_symbol r.1 symbol data).1)
      then _notify_update (_evaluate_conditions_for_symbol r.1 symbol data).1
      else [].
Proof.
  simpl. split; [|split; [|split; [|split]]].
  - apply Forall2_fmap_r, Forall_Forall2_diag, Forall_forall.
    by intros c _.
  - unfold reset_conditions, set_conditions. simpl. f_equal.
    rewrite <- list_fmap_compose. by apply list_fmap_ext.
  - unfold all_satisfied. simpl.
    destruct (conditions self) as [|c cs]; [done|]. by rewrite fmap_cons.
  - done.
  - rewrite evaluate_conditions_for_symbol_eq. simpl.
    rewrite List.filter_app.
    assert (∀ cs, existsb (flips data)
                    ((λ c, Condition.set_current_value None
                             (Condition.set_completed false c)) <$> cs)
                  = existsb Condition.completed
                      (evaluated data <$>
                         ((λ c, Condition.set_current_value None
                                  (Condition.set_completed false c)) <$> cs))) as ->.
    { intros cs. induction cs as [|c cs IH]; [done|].
      rewrite !fmap_cons. simpl. rewrite IH. f_equal.
      unfold flips. simpl. by destruct (Condition.completed (evaluated data _)). }
    assert (∀ calls, Forall (λ c, is_update_call c = true) calls →
                     List.filter is_update_call calls = calls) as Hkeep.
    { intros calls Hall. induction Hall as [|c calls Hc _ IH]; [done|].
      simpl. by rewrite Hc, IH. }
    destruct (existsb _ _).
    + rewrite Hkeep by apply all_update_calls_in_notify.
      destruct (all_satisfied _); [|by rewrite app_nil_r].
      by rewrite no_update_call_in_execute, app_nil_r.
    + simpl. destruct (all_satisfied _); [|done].
      apply no_update_call_in_execute.
Qed.

Lemma evaluate_all_engine a b items :
  conditions a = conditions b →
  update_callbacks a = update_callbacks b →
  trade_executed_callbacks a = trade_executed_callbacks b →
  (evaluate_all a items).2 = (evaluate_all b items).2
  ∧ conditions (evaluate_all a items).1 = conditions (evaluate_all b items).1.
Proof.
  revert a b. induction items as [|[symbol data] items IH]; intros a b Hcs Hup Htr.
  { done. }
  simpl.
  pose proof (evaluate_conditions_for_symbol_eq symbol data a) as Ha.
  pose proof (evaluate_conditions_for_symbol_eq symbol data b) as Hb.
  destruct (_evaluate_conditions_for_symbol a symbol data) as [a1 callsa].
  destruct (_evaluate_conditions_for_symbol b symbol data) as [b1 callsb].
  simpl in Ha, Hb. injection Ha as -> ->. injection Hb as -> ->.
  destruct (IH (set_conditions (evaluated data <$> conditions a) a)
               (set_conditions (evaluated data <$> conditions b) b)) as [IHcalls IHcs].
  { simpl. by rewrite Hcs. }
  { done. }
  { done. }
  destruct (evaluate_all (set_conditions _ a) items) as [a2 latera].
  destruct (evaluate_all (set_conditions _ b) items) as [b2 laterb].
  simpl in *. split; [|done].
  unfold _notify_update, _execute_trade. simpl.
  by rewrite Hcs, Hup, Htr, IHcalls.
Qed.

Lemma evaluate_all_keeps self items :
  market_data (evaluate_all self items).1 = market_data self
  ∧ task_queue (evaluate_all self items).1 = task_queue self.
Proof.
  revert self. induction items as [|[symbol data] items IH]; intros self; [done|].
  simpl.
  pose proof (evaluate_conditions_for_symbol_eq symbol data self) as Hpass.
  destruct (_evaluate_conditions_for_symbol self symbol data) as [self1 calls].
  simpl in Hpass. injection Hpass as -> ->.
  specialize (IH (set_conditions (evaluated data <$> conditions self) self)).
  by destruct (evaluate_all _ items).
Qed.

Lemma evaluate_all_length self items :
  length (evaluate_all self items).2 = length items.
Proof.
  revert self. induction items as [|[symbol data] items IH]; intros self; [done|].
  simpl. destruct (_evaluate_conditions_for_symbol self symbol data) as [self1 calls].
  specialize (IH self1). destruct (evaluate_all self1 items). simpl in *.
  by rewrite IH.
Qed.

Lemma submit_all_snoc self items symbol data :
  submit_all self (items ++ [(symbol, data)])
  = update_market_data (submit_all self items) symbol data.
Proof. unfold submit_all. by rewrite fold_left_app. Qed.

Lemma submit_all_keeps self items :
  conditions (submit_all self items) = conditions self
  ∧ update_callbacks (submit_all self items) = update_callbacks self
  ∧ trade_executed_callbacks (submit_all self items) = trade_executed_callbacks self
  ∧ task_queue (submit_all self items) = task_queue self ++ items.
Proof.
  induction items as [|[symbol data] items IH] using rev_ind.
  - by rewrite app_nil_r.
  - rewrite submit_all_snoc. simpl.
    destruct IH as (-> & -> & -> & ->). by rewrite app_assoc.
Qed.

(** X8.  The queue is first in, first out: draining it after the feed has
    submitted [items] runs one pass per pending item, the items queued before
    first and then [items] in the order submitted, and leaves the queue
    empty. *)
Theorem queue_is_drained_in_order
    (self : Matcher.t) (items : list (string * MarketData.t)) :
  let r := drain_queue (submit_all self items) in
  task_queue r.1 = []
  ∧ r.2 = (evaluate_all self (task_queue self ++ items)).2
  ∧ conditions r.1 = conditions (evaluate_all self (task_queue self ++ items)).1
  ∧ length r.2 = length (task_queue self) + length items.
Proof.
  simpl. unfold drain_queue.
  destruct (submit_all_keeps self items) as (Hcs & Hup & Htr & Hq).
  rewrite Hq, Hcs, Hup, Htr.
  split; [apply evaluate_all_keeps|].
  destruct (evaluate_all_engine
              (mk (conditions self) (market_data (submit_all self items)) []
                  (update_callbacks self) (trade_executed_callbacks self)
                  (running (submit_all self items)))
              self (task_queue self ++ items) eq_refl eq_refl eq_refl) as [Hcalls Hconds].
  split; [done|]. split; [done|].
  by rewrite Hcalls, evaluate_all_length, length_app.
Qed.

Lemma market_data_after_drain self items symbol :
  market_data (drain_queue (submit_all self items)).1 !! symbol
  = match last_for symbol items with
    | Some data => Some data
    | None => market_data self !! symbol
    end.
Proof.
  unfold drain_queue.
  rewrite (proj1 (evaluate_all_keeps _ _)). simpl.
  induction items as [|[s d] items IH] using rev_ind; [done|].
  rewrite submit_all_snoc. simpl.
  unfold last_for in *. rewrite List.filter_app. simpl.
  destruct (String.eqb s symbol) eqn:Heq.
  - apply String.eqb_eq in Heq as ->.
    rewrite lookup_insert_eq. by rewrite last_snoc.
  - apply String.eqb_neq in Heq.
    rewrite lookup_insert_ne by done. by rewrite app_nil_r.
Qed.

(** X9.  The matcher retains, per symbol, the last snapshot submitted:
    after the feed has submitted [items] and the queue has been drained,
    [market_data] holds for each symbol the last of [items] for it, or what it
    held before when [items] has none. *)
Theorem latest_snapshot_is_retained
    (self : Matcher.t) (items : list (string * MarketData.t)) (symbol : string) :
  market_data (drain_queue (submit_all self items)).1 !! symbol
  = match last_for symbol items with
    | Some data => Some data
    | None => market_data self !! symbol
    end.
Proof. apply market_data_after_drain. Qed.

End QueueAndReset.

(** * Further properties of the executor *)

Section FloatFacts.

Lemma nan_spec x : PrimFloat.is_nan x = true → Prim2SF x = S754_nan.
Proof. unfold Prim2SF. by intros ->. Qed.

Lemma mul_nan_l x y : Prim2SF x = S754_nan → Prim2SF (x * y)%float = S754_nan.
Proof. intros Hx. rewrite mul_spec, Hx. reflexivity. Qed.

Lemma div_nan_r x y : Prim2SF y = S754_nan → Prim2SF (x / y)%float = S754_nan.
Proof. intros Hy. rewrite div_spec, Hy. by destruct (Prim2SF x). Qed.

Lemma ltb_nan_r x y : Prim2SF y = S754_nan → (x <? y)%float = false.
Proof. intros Hy. rewrite ltb_spec, Hy. by destruct (Prim2SF x). Qed.

Lemma is_zero_nan x : Prim2SF x = S754_nan → PrimFloat.is_zero x = false.
Proof. intros Hx. unfold PrimFloat.is_zero. rewrite FloatAxioms.eqb_spec, Hx. reflexivity. Qed.

Lemma int_nan x : Prim2SF x = S754_nan → Py.int x = Py.Raise Py.ValueError.
Proof. unfold Py.int. by intros ->. Qed.

Lemma ltb_irrefl x : (x <? x)%float = false.
Proof.
  rewrite ltb_spec. unfold SFltb.
  destruct (Prim2SF x) as [s|s| |s m e]; [by destruct s|by destruct s|done|].
  simpl. rewrite Z.compare_refl.
  change (Pos.compare_cont Eq m m) with (Pos.compare m m).
  rewrite Pos.compare_refl. by destruct s.
Qed.

End FloatFacts.

Section ExecutorProperties.
Import Executor.

Lemma risk_orders_length self e market_data E :
  length (_set_broker_risk_orders self e market_data E) ≤ 2.
Proof. unfold _set_broker_risk_orders. destruct (broker E _); simpl; lia. Qed.

(** X10.  Whatever [execute_trade] returns, it has changed nothing of the
    executor but the ledger, which has grown by exactly the execution
    returned, if any: the daily P&L in particular is never updated.  In
    simulation mode no order reaches the broker, and in any mode at most three
    do. *)
Theorem execute_trade_only_appends
    (self : Executor.t) (symbol : string) (market_data : MarketData.t)
    (conditions : list Condition.t) (E : Executor.env) (o : outcome) :
  execute_trade self symbol market_data conditions E = Py.Ok o →
  portfolio_value (executor o) = portfolio_value self
  ∧ risk_params (executor o) = risk_params self
  ∧ daily_pnl (executor o) = daily_pnl self
  ∧ last_reset_date (executor o) = last_reset_date self
  ∧ using_real_broker (executor o) = using_real_broker self
  ∧ executed_trades (executor o) = executed_trades self ++ option_list (returned o)
  ∧ (using_real_broker self = false → placed o = [])
  ∧ length (placed o) ≤ 3.
Proof.
  unfold execute_trade.
  destruct (negb _).
  { intros [= <-]. simpl. rewrite app_nil_r. repeat split; try done. lia. }
  destruct (_calculate_position_size self market_data) as [shares|]; [|done].
  simpl. destruct (shares <=? 0)%Z.
  { intros [= <-]. simpl. rewrite app_nil_r. repeat split; try done. lia. }
  destruct (if using_real_broker self then _ else _) as [e|].
  - intros [= <-]. simpl. repeat split; try done.
    + by intros ->.
    + destruct (using_real_broker self); simpl; [|lia].
      pose proof (risk_orders_length (append_trade e self) e market_data E). lia.
  - intros [= <-]. simpl. rewrite app_nil_r. repeat split; try done.
    + by intros ->.
    + destruct (using_real_broker self); simpl; lia.
Qed.

Lemma execute_trade_only_appends_witness :
  let self := Sample.executor 0 false in
  let o := mk_outcome (append_trade Sample.fill self) (Some Sample.fill) [] in
  execute_trade self "AAPL" (Sample.snapshot 50) Sample.demo_conditions
    (Sample.env Declined) = Py.Ok o
  ∧ daily_pnl (executor o) = daily_pnl self
  ∧ executed_trades (executor o) = executed_trades self ++ option_list (returned o).
Proof.
  split; [reflexivity|].
  pose proof (execute_trade_only_appends (Sample.executor 0 false) "AAPL"
                (Sample.snapshot 50) Sample.demo_conditions (Sample.env Declined)
                (mk_outcome (append_trade Sample.fill (Sample.executor 0 false))
                   (Some Sample.fill) []) eq_refl) as H.
  exact (conj (proj1 (proj2 (proj2 H))) (proj1 (proj2 (proj2 (proj2 (proj2 (proj2 H))))))).
Defined.

(** X11.  With a real broker, every execution [execute_trade] returns, the
    broker's own or the simulated one it falls back to when the broker call
    raises, is followed by protective orders handed to the broker: a stop
    order at [executed_price * (1 - stop_loss_percentage)] and, unless the
    stop order's call raises, a limit order at [executed_price * (1 +
    take_profit_percentage)], both for the executed quantity. *)
Theorem executions_get_protective_orders
    (self : Executor.t) (symbol : string) (market_data : MarketData.t)
    (conditions : list Condition.t) (E : Executor.env) (o : outcome)
    (e : TradeExecution.t) :
  using_real_broker self = true →
  execute_trade self symbol market_data conditions E = Py.Ok o →
  returned o = Some e →
  let stop_order :=
    TradeOrder.mk (TradeOrder.symbol (TradeExecution.order e)) "stop"
      (TradeExecution.executed_quantity e) None
      (Some (TradeExecution.executed_price e
             * (1 - RiskParameters.stop_loss_percentage (risk_params self)))%float)
      "IOC" in
  let limit_order :=
    TradeOrder.mk (TradeOrder.symbol (TradeExecution.order e)) "limit"
      (TradeExecution.executed_quantity e)
      (Some (TradeExecution.executed_price e
             * (1 + RiskParameters.take_profit_percentage (risk_params self)))%float)
      None "IOC" in
  ∃ shares,
    _calculate_position_size self market_data = Py.Ok shares
    ∧ placed o
      = _create_order symbol market_data shares :: stop_order
        :: match broker E stop_order with Failed => [] | _ => [limit_order] end.
Proof.
  intros Hreal. unfold execute_trade. rewrite Hreal.
  destruct (negb _); [by intros [= <-]|].
  destruct (_calculate_position_size self market_data) as [shares|]; [|done].
  simpl. destruct (shares <=? 0)%Z; [by intros [= <-]|].
  destruct (_execute_real_broker _ _ _) as [e'|]; [|by intros [= <-]].
  intros [= <-]. simpl. intros [= ->].
  exists shares. split; [done|].
  unfold _set_broker_risk_orders. simpl.
  by destruct (broker E _).
Qed.

Lemma executions_get_protective_orders_witness :
  let self := Sample.executor 0 true in
  let E := Sample.env Failed in
  let o :=
    mk_outcome (append_trade Sample.fill self) (Some Sample.fill)
      [_create_order "AAPL" (Sample.snapshot 50) 1000;
       TradeOrder.mk "AAPL" "stop" 1000 None
         (Some (TradeExecution.executed_price Sample.fill * (1 - 0.02))%float) "IOC"] in
  using_real_broker self = true
  ∧ execute_trade self "AAPL" (Sample.snapshot 50) Sample.demo_conditions E = Py.Ok o
  ∧ ∃ shares,
      _calculate_position_size self (Sample.snapshot 50) = Py.Ok shares
      ∧ placed o
        = [_create_order "AAPL" (Sample.snapshot 50) shares;
           TradeOrder.mk "AAPL" "stop" 1000 None
             (Some (TradeExecution.executed_price Sample.fill * (1 - 0.02))%float) "IOC"].
Proof.
  split; [reflexivity|]. split; [reflexivity|].
  exact (executions_get_protective_orders (Sample.executor 0 true) "AAPL"
           (Sample.snapshot 50) Sample.demo_conditions (Sample.env Failed) _
           Sample.fill eq_refl eq_refl eq_refl).
Defined.

(** X12.  A snapshot that passes the risk limits but whose price times
    [stop_loss_percentage] is zero, a price of 0.0 for one, is not rejected:
    [execute_trade] raises [ZeroDivisionError]. *)
Theorem zero_price_raises
    (self : Executor.t) (symbol : string) (market_data : MarketData.t)
    (conditions : list Condition.t) (E : Executor.env) :
  _check_risk_limits self symbol market_data = true →
  PrimFloat.is_zero
    (MarketData.price market_data
     * RiskParameters.stop_loss_percentage (risk_params self))%float = true →
  execute_trade self symbol market_data conditions E = Py.Raise Py.ZeroDivisionError.
Proof.
  intros Hlimits Hzero. unfold execute_trade, _calculate_position_size, Py.truediv.
  by rewrite Hlimits, Hzero.
Qed.

Lemma zero_price_raises_witness :
  _check_risk_limits (Sample.executor 0 false) "AAPL" (Sample.snapshot 0) = true
  ∧ execute_trade (Sample.executor 0 false) "AAPL" (Sample.snapshot 0)
      Sample.demo_conditions (Sample.env Declined)
    = Py.Raise Py.ZeroDivisionError.
Proof.
  split; [reflexivity|].
  apply (zero_price_raises (Sample.executor 0 false) "AAPL" (Sample.snapshot 0)
           Sample.demo_conditions (Sample.env Declined)); reflexivity.
Defined.

(** X13.  A NaN price is not caught by the position-size limit: unless the
    daily-loss limit rejects the trigger, [execute_trade] goes on to size the
    position and raises [ValueError]. *)
Theorem nan_price_raises
    (self : Executor.t) (symbol : string) (market_data : MarketData.t)
    (conditions : list Condition.t) (E : Executor.env) :
  PrimFloat.is_nan (MarketData.price market_data) = true →
  (daily_pnl self <? - RiskParameters.max_daily_loss (risk_params self))%float = false →
  _check_risk_limits self symbol market_data = true
  ∧ execute_trade self symbol market_data conditions E = Py.Raise Py.ValueError.
Proof.
  intros Hnan%nan_spec Hloss.
  assert (_check_risk_limits self symbol market_data = true) as Hlimits.
  { unfold _check_risk_limits. rewrite Hloss.
    by rewrite (ltb_nan_r _ _ (mul_nan_l _ 100 Hnan)). }
  split; [done|].
  unfold execute_trade, _calculate_position_size, Py.truediv. rewrite Hlimits. simpl.
  pose proof (mul_nan_l _ (RiskParameters.stop_loss_percentage (risk_params self)) Hnan)
    as Hstop.
  rewrite (is_zero_nan _ Hstop). simpl.
  by rewrite (int_nan _ (div_nan_r _ _ Hstop)).
Qed.

Lemma nan_price_raises_witness :
  PrimFloat.is_nan (MarketData.price (Sample.snapshot nan)) = true
  ∧ _check_risk_limits (Sample.executor 0 false) "AAPL" (Sample.snapshot nan) = true
  ∧ execute_trade (Sample.executor 0 false) "AAPL" (Sample.snapshot nan)
      Sample.demo_conditions (Sample.env Declined)
    = Py.Raise Py.ValueError.
Proof.
  split; [reflexivity|].
  apply (nan_price_raises (Sample.executor 0 false) "AAPL" (Sample.snapshot nan)
           Sample.demo_conditions (Sample.env Declined)); reflexivity.
Defined.

(** X14.  [reset_daily_account] clears the daily P&L and records the day
    when the day read is later than the day of the last reset, and otherwise
    changes nothing; it never touches the ledger, the portfolio value or the
    risk parameters, and a second call on the same day changes nothing. *)
Theorem reset_daily_account_once_a_day (self : Executor.t) (current_date : float) :
  let self' := reset_daily_account self current_date in
  reset_daily_account self' current_date = self'
  ∧ executed_trades self' = executed_trades self
  ∧ portfolio_value self' = portfolio_value self
  ∧ risk_params self' = risk_params self
  ∧ using_real_broker self' = using_real_broker self
  ∧ ((last_reset_date self <? current_date)%float = true →
     daily_pnl self' = 0%float ∧ last_reset_date self' = current_date)
  ∧ ((last_reset_date self <? current_date)%float = false → self' = self).
Proof.
  simpl. unfold reset_daily_account.
  destruct (last_reset_date self <? current_date)%float eqn:Hlater.
  - simpl. rewrite ltb_irrefl. by repeat split.
  - rewrite Hlater. by repeat split.
Qed.

(** X15.  Execution ids are unique only up to the millisecond: two
    simulated executions carry the same [execution_id] exactly when their
    clock readings truncate to the same number of milliseconds. *)
Theorem execution_ids_collide_within_a_millisecond
    (order1 order2 : TradeOrder.t) (data1 data2 : MarketData.t)
    (E1 E2 : Executor.env) (e1 e2 : TradeExecution.t) :
  _simulate_execution order1 data1 E1 = Some e1 →
  _simulate_execution order2 data2 E2 = Some e2 →
  (TradeExecution.execution_id e1 = TradeExecution.execution_id e2
   ↔ Py.int (time_id E1 * 1000)%float = Py.int (time_id E2 * 1000)%float).
Proof.
  unfold _simulate_execution.
  destruct (Py.float_of_int (TradeOrder.quantity order1)) as [q1|]; [|done].
  destruct (Py.float_of_int (TradeOrder.quantity order2)) as [q2|]; [|done].
  simpl.
  destruct (Py.int (time_id E1 * 1000)%float) as [m1|]; [|done].
  destruct (Py.int (time_id E2 * 1000)%float) as [m2|]; [|done].
  simpl. intros [= <-] [= <-]. simpl. unfold Py.str_int. split.
  - intros Hid. injection Hid as Hid.
    change (pretty m1 = pretty m2) in Hid.
    by apply (inj (pretty : Z → string)) in Hid as ->.
  - by intros [= ->].
Qed.

Lemma execution_ids_collide_within_a_millisecond_witness :
  let order := _create_order "AAPL" (Sample.snapshot 50) 1000 in
  let E1 := mk_env (λ _, Declined) 0.0001 1730000000.5 1730000000.7501 in
  let E2 := mk_env (λ _, Declined) (-0.0002) 1730000000.5 1730000000.7509 in
  ∃ e1 e2,
    _simulate_execution order (Sample.snapshot 50) E1 = Some e1
    ∧ _simulate_execution order (Sample.snapshot 50) E2 = Some e2
    ∧ (TradeExecution.execution_id e1 = TradeExecution.execution_id e2
       ↔ Py.int (time_id E1 * 1000)%float = Py.int (time_id E2 * 1000)%float)
    ∧ TradeExecution.execution_id e1 = TradeExecution.execution_id e2.
Proof.
  eexists. eexists. split; [reflexivity|]. split; [reflexivity|].
  split; [|reflexivity].
  apply (execution_ids_collide_within_a_millisecond
           (_create_order "AAPL" (Sample.snapshot 50) 1000)
           (_create_order "AAPL" (Sample.snapshot 50) 1000)
           (Sample.snapshot 50) (Sample.snapshot 50)
           (mk_env (λ _, Declined) 0.0001 1730000000.5 1730000000.7501)
           (mk_env (λ _, Declined) (-0.0002) 1730000000.5 1730000000.7509));
    reflexivity.
Defined.

End ExecutorProperties.

(** * The matcher and the executor as main.py wires them *)

Section Wiring.
Import Matcher Executor.

Lemma trade_call_symbol self symbol data cb s cs :
  TradeCall cb s cs ∈ (_evaluate_conditions_for_symbol self symbol data).2 → s = symbol.
Proof.
  rewrite evaluate_conditions_for_symbol_eq. simpl.
  intros [Hin|Hin]%elem_of_app.
  - destruct (existsb _ _); [|by apply elem_of_nil in Hin].
    unfold _notify_update in Hin. apply list_elem_of_fmap in Hin as (? & ? & _).
    discriminate.
  - destruct (all_satisfied _); [|by apply elem_of_nil in Hin].
    unfold _execute_trade in Hin.
    apply list_elem_of_fmap in Hin as (cb' & Heq & _). by injection Heq.
Qed.

Lemma trade_call_count self symbol data :
  length (List.filter is_trade_call (_evaluate_conditions_for_symbol self symbol data).2)
  = if all_satisfied (conditions (_evaluate_conditions_for_symbol self symbol data).1)
    then length (trade_executed_callbacks self) else 0.
Proof.
  rewrite evaluate_conditions_for_symbol_eq. simpl.
  rewrite List.filter_app, length_app.
  assert (length (List.filter is_trade_call
                    (if existsb (flips data) (conditions self)
                     then _notify_update
                            (set_conditions (evaluated data <$> conditions self) self)
                     else [])) = 0) as ->.
  { destruct (existsb _ _); [|done]. by rewrite no_trade_call_in_notify. }
  destruct (all_satisfied _); [|done].
  unfold _execute_trade. simpl.
  induction (trade_executed_callbacks self) as [|cb cbs IH]; [done|].
  rewrite fmap_cons. simpl. by rewrite IH.
Qed.

(** The trade calls of a run of passes that all leave the set satisfied:
    their number, and the symbols they are for. *)
Lemma satisfied_run_trade_calls self items :
  stays_satisfied self items = true →
  length (List.filter is_trade_call (concat (evaluate_all self items).2))
  = length items * length (trade_executed_callbacks self)
  ∧ ∀ cb s cs, TradeCall cb s cs ∈ concat (evaluate_all self items).2 →
               s ∈ items.*1.
Proof.
  revert self. induction items as [|[symbol data] items IH]; intros self Hstays.
  { split; [done|]. intros cb s cs Hin. by apply elem_of_nil in Hin. }
  simpl in *.
  pose proof (trade_call_count self symbol data) as Hcount.
  pose proof (pass_trade_callbacks symbol data self) as Hcbs.
  pose proof (trade_call_symbol self symbol data) as Hsym.
  destruct (_evaluate_conditions_for_symbol self symbol data) as [self1 calls].
  simpl in *. apply andb_prop in Hstays as [Hnow Hlater].
  destruct (IH self1 Hlater) as [IHcount IHsym].
  destruct (evaluate_all self1 items) as [self2 later]. simpl in *.
  rewrite Hnow in Hcount. rewrite Hcbs in IHcount. split.
  - rewrite List.filter_app, length_app, Hcount, IHcount. lia.
  - intros cb s cs [Hin|Hin]%elem_of_app.
    + rewrite (Hsym cb s cs Hin). apply list_elem_of_here.
    + apply list_elem_of_further. by eapply IHsym.
Qed.

(** In simulation mode the callback appends one execution whenever the
    retained snapshot passes the risk limits with a positive size. *)
Lemma on_trade_executed_appends market_data ex s cs E snapshot shares :
  market_data !! s = Some snapshot →
  using_real_broker ex = false →
  _check_risk_limits ex s snapshot = true →
  _calculate_position_size ex snapshot = Py.Ok shares →
  (0 < shares)%Z →
  Py.is_finite (time_id E * 1000)%float = true →
  ∃ e, Main.on_trade_executed market_data ex s cs E = append_trade e ex.
Proof.
  intros Hlookup Hsim Hlimits Hsize Hpos Hclock.
  destruct (position_size_is_int _ _ _ Hsize) as [position_size Hint].
  destruct (float_of_int_defined _ _ Hint Hpos) as [quantity Hquantity].
  destruct (int_defined _ Hclock) as [millis Hmillis].
  pose proof (simulate_execution_ok snapshot E (_create_order s snapshot shares)
                quantity millis Hquantity Hmillis) as Hfill.
  unfold Main.on_trade_executed, execute_trade.
  rewrite Hlookup, Hlimits, Hsize, Hsim. simpl.
  rewrite (proj2 (Z.leb_gt shares 0) Hpos), Hfill. by eexists.
Qed.

Lemma handle_calls_trades market_data calls :
  ∀ ex envs n,
    using_real_broker ex = false →
    (∀ cb s cs, TradeCall cb s cs ∈ calls →
       ∃ snapshot shares,
         market_data !! s = Some snapshot
         ∧ _check_risk_limits ex s snapshot = true
         ∧ _calculate_position_size ex snapshot = Py.Ok shares
         ∧ (0 < shares)%Z) →
    (∀ k, Py.is_finite (time_id (envs k) * 1000)%float = true) →
    length (executed_trades (Main.handle_calls market_data ex calls envs n))
    = length (executed_trades ex) + length (List.filter is_trade_call calls).
Proof.
  induction calls as [|[cb cs|cb s cs] calls IH]; intros ex envs n Hsim Hok Hclock.
  - simpl. lia.
  - simpl. apply IH; [done| |done].
    intros cb' s' cs' Hin. apply (Hok cb' s' cs'). by apply list_elem_of_further.
  - simpl.
    destruct (Hok cb s cs (list_elem_of_here _ _))
      as (snapshot & shares & Hlookup & Hlimits & Hsize & Hpos).
    destruct (on_trade_executed_appends market_data ex s cs (envs n) snapshot shares
                Hlookup Hsim Hlimits Hsize Hpos (Hclock n)) as [e ->].
    rewrite IH; [|done| |done].
    + simpl. rewrite length_app. simpl. lia.
    + intros cb' s' cs' Hin. apply (Hok cb' s' cs'). by apply list_elem_of_further.
Qed.

(** X16.  With the callbacks of [main.py] and no real broker, every pass
    that leaves the set satisfied ends in a trade: over passes that all leave
    the set satisfied, for symbols whose retained snapshot passes the risk
    limits with a positive size, the ledger grows by one execution per pass and
    per registered trade callback. *)
Theorem every_satisfied_pass_trades
    (self : Matcher.t) (items : list (string * MarketData.t))
    (ex : Executor.t) (envs : nat → Executor.env) :
  using_real_broker ex = false →
  stays_satisfied self items = true →
  Forall (λ item, ∃ snapshot shares,
            market_data self !! item.1 = Some snapshot
            ∧ _check_risk_limits ex item.1 snapshot = true
            ∧ _calculate_position_size ex snapshot = Py.Ok shares
            ∧ (0 < shares)%Z) items →
  (∀ k, Py.is_finite (time_id (envs k) * 1000)%float = true) →
  length (executed_trades
            (Main.handle_calls (market_data self) ex
               (concat (evaluate_all self items).2) envs 0))
  = length (executed_trades ex) + length items * length (trade_executed_callbacks self).
Proof.
  intros Hsim Hstays Hitems Hclock.
  destruct (satisfied_run_trade_calls self items Hstays) as [Hcount Hsym].
  rewrite handle_calls_trades; [by rewrite Hcount|done| |done].
  intros cb s cs Hin. apply Hsym in Hin.
  apply list_elem_of_fmap in Hin as ([s' d] & -> & Hin).
  rewrite Forall_forall in Hitems. by apply (Hitems (s', d)).
Qed.

Lemma every_satisfied_pass_trades_witness :
  let self :=
    update_market_data (Sample.matcher Sample.demo_conditions) "AAPL" (Sample.snapshot 50) in
  let items := [("AAPL", Sample.snapshot 50); ("AAPL", Sample.snapshot 50)] in
  let ex := Sample.executor 0 false in
  using_real_broker ex = false
  ∧ stays_satisfied self items = true
  ∧ length (executed_trades
              (Main.handle_calls (market_data self) ex
                 (concat (evaluate_all self items).2) (λ _, Sample.env Declined) 0))
    = 0 + 2 * 1.
Proof.
  split; [reflexivity|]. split; [reflexivity|].
  apply (every_satisfied_pass_trades
           (update_market_data (Sample.matcher Sample.demo_conditions) "AAPL"
              (Sample.snapshot 50))
           [("AAPL", Sample.snapshot 50); ("AAPL", Sample.snapshot 50)]
           (Sample.executor 0 false) (λ _, Sample.env Declined)).
  - reflexivity.
  - reflexivity.
  - repeat constructor; exists (Sample.snapshot 50), 1000%Z; repeat split; try reflexivity.
  - intros k. reflexivity.
Defined.

(** X17.  The trade callback trades on the snapshot the matcher retains,
    not on the one whose pass called it: once the feed has submitted [items],
    a call for [symbol] hands [execute_trade] the last of [items] for that
    symbol, whichever queued snapshot triggered the call. *)
Theorem trade_uses_latest_snapshot
    (self : Matcher.t) (items : list (string * MarketData.t))
    (symbol : string) (data : MarketData.t)
    (ex : Executor.t) (cs : list Condition.t) (E : Executor.env) :
  last_for symbol items = Some data →
  Main.on_trade_executed (market_data (drain_queue (submit_all self items)).1)
    ex symbol cs E
  = match execute_trade ex symbol data cs E with
    | Py.Ok o => executor o
    | Py.Raise _ => ex
    end.
Proof.
  intros Hlast. unfold Main.on_trade_executed.
  by rewrite market_data_after_drain, Hlast.
Qed.

Lemma trade_uses_latest_snapshot_witness :
  let items := [("AAPL", Sample.snapshot 120); ("AAPL", Sample.snapshot 50)] in
  let self := Sample.matcher Sample.demo_conditions in
  last_for "AAPL" items = Some (Sample.snapshot 50)
  ∧ (drain_queue (submit_all self items)).2 !! 0
    = Some [UpdateCall "on_conditions_updated"
              (evaluated (Sample.snapshot 120) <$> Sample.demo_conditions);
            TradeCall "on_trade_executed" "AAPL"
              (evaluated (Sample.snapshot 120) <$> Sample.demo_conditions)]
  ∧ Main.on_trade_executed (market_data (drain_queue (submit_all self items)).1)
      (Sample.executor 0 false) "AAPL"
      (evaluated (Sample.snapshot 120) <$> Sample.demo_conditions) (Sample.env Declined)
    = append_trade Sample.fill (Sample.executor 0 false).
Proof.
  split; [reflexivity|]. split; [reflexivity|].
  exact (trade_uses_latest_snapshot (Sample.matcher Sample.demo_conditions)
           [("AAPL", Sample.snapshot 120); ("AAPL", Sample.snapshot 50)]
           "AAPL" (Sample.snapshot 50) (Sample.executor 0 false)
           (evaluated (Sample.snapshot 120) <$> Sample.demo_conditions)
           (Sample.env Declined) eq_refl).
Defined.

End Wiring.
